(** * Roo-Code-Exposed: the bridge server [src/server/WebServer.ts]

    A shallow embedding of the [WebServer] class: the access guard
    ([checkBasicAuth]), the static asset resolver ([handleRequest],
    [serveFile], [serveIndexHtml]), the connection registry and the message
    relay ([broadcastToClients] and the listeners installed by [start]), and
    the configuration methods ([configure], [getPort]).

    Conventions.
    - Text that travels in HTTP (header values, request targets, filesystem
      paths, frames) is a [string]: one [ascii] per code unit.
    - Text that went through a UTF-8 decoder or came from the settings (the
      decoded credential, the configured password) is a [JSString]: the list
      of its UTF-16 code units, which is what [===] compares.
    - A JavaScript [number] is an IEEE-754 value, [spec_float].
    - Functions of the Node.js runtime ([Buffer], [JSON], [path], [fs]) are
      not code of the repository: the server is stated over interfaces
      (classes) for them, and models of some of them are given for the
      examples. *)

From Stdlib Require Import String Ascii List ZArith NArith Bool Lia.
From Stdlib Require Import Floats.SpecFloat.
Import ListNotations.

Local Open Scope list_scope.
Local Open Scope string_scope.

(** ** JavaScript values *)

Module JS.

(** A [number]: a binary64 value. *)
Definition number : Type := spec_float.

(** The number denoted by an integer literal. *)
Definition number_of_Z (z : Z) : number := binary_normalize 53 1024 z 0 false.

(** [m * 2^e] as a number (for literals such as [1.5]). *)
Definition number_of_dyadic (m e : Z) : number := binary_normalize 53 1024 m e false.

(** [x > 0]: false when [x] is NaN. *)
Definition gt_zero (x : number) : bool := SFltb (S754_zero false) x.

(** [Number.isInteger x]. *)
Definition isInteger (x : number) : bool :=
  match x with
  | S754_zero _ => true
  | S754_finite _ m e =>
      if (0 <=? e)%Z then true else (Z.pos m mod 2 ^ (- e) =? 0)%Z
  | S754_infinity _ | S754_nan => false
  end.

(** A string as its UTF-16 code units. *)
Definition JSString : Type := list N.

(** The code units of a string of ASCII characters. *)
Definition units (s : string) : JSString :=
  map N_of_ascii (list_ascii_of_string s).

Definition COLON : N := 58.

(** [s.indexOf(c)], with [-1] when [c] does not occur. *)
Fixpoint indexOf_from (c : N) (s : JSString) (i : Z) : Z :=
  match s with
  | [] => (-1)%Z
  | x :: r => if N.eqb x c then i else indexOf_from c r (i + 1)%Z
  end.

Definition indexOf (c : N) (s : JSString) : Z := indexOf_from c s 0.

(** [s.slice(i)] for [0 <= i]. *)
Definition slice (i : Z) (s : JSString) : JSString := skipn (Z.to_nat i) s.

(** [s.length !== 0], the truth value of a string. *)
Definition nonEmpty (s : JSString) : bool :=
  match s with [] => false | _ :: _ => true end.

(** [s.startsWith(p)]. *)
Fixpoint startsWith (s p : string) {struct p} : bool :=
  match p with
  | EmptyString => true
  | String a p' =>
      match s with
      | String b s' => if Ascii.eqb a b then startsWith s' p' else false
      | EmptyString => false
      end
  end.

(** [s.slice(n)] on a [string]. *)
Fixpoint sliceFrom (n : nat) (s : string) : string :=
  match n, s with
  | O, _ => s
  | S n', String _ s' => sliceFrom n' s'
  | S _, EmptyString => EmptyString
  end.

(** [s.split(c)[0]]: the text before the first [c], all of [s] without one. *)
Fixpoint beforeFirst (c : ascii) (s : string) : string :=
  match s with
  | EmptyString => EmptyString
  | String a r => if Ascii.eqb a c then EmptyString else String a (beforeFirst c r)
  end.

(** ASCII lower-casing, which is what [toLowerCase] does to the letters
    that the MIME table distinguishes. *)
Definition lower (a : ascii) : ascii :=
  let n := nat_of_ascii a in
  if (65 <=? n)%nat && (n <=? 90)%nat then ascii_of_nat (n + 32) else a.

Fixpoint toLowerCase (s : string) : string :=
  match s with
  | EmptyString => EmptyString
  | String a r => String (lower a) (toLowerCase r)
  end.

(** What [JSON.parse] returns. *)
#[local] Unset Elimination Schemes.
Inductive JSON : Type :=
| JNull
| JBool (b : bool)
| JNumber (x : number)
| JString (s : string)
| JArray (items : list JSON)
| JObject (fields : list (string * JSON)).
#[local] Set Elimination Schemes.

(** An error thrown by the runtime, as the text [`${err}`] renders it. *)
Definition exn : Type := string.

Fixpoint lookup (k : string) (fields : list (string * JSON)) : option JSON :=
  match fields with
  | [] => None
  | (k', v) :: r => if String.eqb k k' then Some v else lookup k r
  end.

(** [v.k] for a parsed value [v] and one of the names this server reads
    ([type], [payload], [action]): a [TypeError] on [null], the field of an
    object, [undefined] ([None]) on everything else, since no prototype
    defines these names. *)
Definition getProp (v : JSON) (k : string) : exn + option JSON :=
  match v with
  | JNull => inl ("TypeError: Cannot read properties of null (reading '" ++ k ++ "')")
  | JObject fields => inr (lookup k fields)
  | JBool _ | JNumber _ | JString _ | JArray _ => inr None
  end.

(** ToBoolean. *)
Definition truthy (v : option JSON) : bool :=
  match v with
  | None => false
  | Some JNull => false
  | Some (JBool b) => b
  | Some (JNumber x) =>
      match x with
      | S754_zero _ | S754_nan => false
      | S754_infinity _ | S754_finite _ _ _ => true
      end
  | Some (JString s) => negb (String.eqb s EmptyString)
  | Some (JArray _) | Some (JObject _) => true
  end.

(** [v === lit] for a string literal [lit]. *)
Definition strictEqString (v : option JSON) (lit : string) : bool :=
  match v with
  | Some (JString s) => String.eqb s lit
  | _ => false
  end.

End JS.

(** ** The runtime, as the server sees it *)

Import JS.

(** [Buffer.from(encoded, "base64").toString("utf-8")]. *)
Class BufferModule : Type :=
  { base64_utf8 : string -> JSString }.

(** [JSON.parse] and [JSON.stringify]; either may throw. *)
Class JSONModule : Type :=
  { JSON_parse : string -> exn + JSON;
    JSON_stringify : JSON -> exn + string }.

(** [path.join] of two segments and [path.extname]. *)
Class PathModule : Type :=
  { path_join : string -> string -> string;
    path_extname : string -> string }.

(** [fs.existsSync] (never throws) and [fs.readFileSync] (may throw). The
    disk does not change while one request is served. *)
Class FileSystem : Type :=
  { existsSync : string -> bool;
    readFileSync : string -> exn + string }.

(** The fixed text of the template literal of [serveIndexHtml], cut at its
    two interpolations: before the style sheet link, between the link and the
    bundle script, and after the script. *)
Class PageTemplate : Type :=
  { template_head : string;
    template_body : string;
    template_tail : string }.

(** ** State and effects *)

(** A piece of a template literal written to the output channel. *)
Inductive Fragment : Type :=
| Text (s : string)
| Num (x : number)
| Count (n : nat).

(** [WebSocket.readyState]. *)
Inductive ReadyState : Type := CONNECTING | OPEN | CLOSING | CLOSED.

Definition ReadyState_eqb (a b : ReadyState) : bool :=
  match a, b with
  | CONNECTING, CONNECTING | OPEN, OPEN | CLOSING, CLOSING | CLOSED, CLOSED => true
  | _, _ => false
  end.

(** A connection: the identity of the socket object and its state. *)
Record WebSocket : Type :=
  { ws_id : nat;
    readyState : ReadyState }.

Record HttpServer : Type :=
  { listening : bool }.

(** A value that is thrown, or that a promise is rejected with. An error
    of the runtime is an [Error] object, which has a text. A callback may
    throw or reject with any value, and some values have no text (a Symbol,
    an object without [toString]): rendering one throws a [TypeError]. *)
Inductive Thrown : Type :=
| thrown (text : exn)
| unprintable (typeError : exn).

(** The template literal [`${err}`]: the text of [err], or the [TypeError]
    that making it throws. *)
Definition render (err : Thrown) : exn + string :=
  match err with
  | thrown text => inr text
  | unprintable typeError => inl typeError
  end.

(** A registered callback: [None] when the promise it returns is fulfilled,
    [Some err] when it throws or rejects with [err]. *)
Definition WebServerMessageHandler : Type := JSON -> option Thrown.
Definition WebServerToolbarActionHandler : Type := JSON -> option Thrown.

(** The fields of the class. [clients] is a [Set]: insertion ordered, one
    entry per socket. *)
Record WebServer : Type :=
  { httpServer : option HttpServer;
    wss : option unit;
    clients : list WebSocket;
    messageHandler : option WebServerMessageHandler;
    toolbarActionHandler : option WebServerToolbarActionHandler;
    port : number;
    password : JSString }.

(** What a method does to the world outside the object. *)
Inductive Event : Type :=
| appendLine (line : list Fragment)
| callMessageHandler (payload : JSON)
| callToolbarActionHandler (action : JSON)
| stringify (value : JSON)
| send (client : nat) (data : string)
| listen (on_port : number) (host : string).

Definition DEFAULT_WEB_SERVER_PORT : number := number_of_Z 30000.

Definition MIME_TYPES : list (string * string) :=
  [ (".html", "text/html");
    (".js", "application/javascript");
    (".mjs", "application/javascript");
    (".css", "text/css");
    (".json", "application/json");
    (".png", "image/png");
    (".jpg", "image/jpeg");
    (".jpeg", "image/jpeg");
    (".gif", "image/gif");
    (".svg", "image/svg+xml");
    (".ico", "image/x-icon");
    (".woff", "font/woff");
    (".woff2", "font/woff2");
    (".ttf", "font/ttf");
    (".eot", "application/vnd.ms-fontobject");
    (".otf", "font/otf");
    (".wasm", "application/wasm");
    (".mp3", "audio/mpeg");
    (".wav", "audio/wav");
    (".ogg", "audio/ogg") ].

(** [table[key]] on a record of strings. *)
Fixpoint record_get (table : list (string * string)) (key : string) : option string :=
  match table with
  | [] => None
  | (k, v) :: r => if String.eqb key k then Some v else record_get r key
  end.

(** The object a new [WebServer(...)] is. *)
Definition new_WebServer : WebServer :=
  {| httpServer := None;
     wss := None;
     clients := [];
     messageHandler := None;
     toolbarActionHandler := None;
     port := DEFAULT_WEB_SERVER_PORT;
     password := [] |}.

(** ** HTTP: the access guard and the static asset resolver *)

Module Http.

(** The parts of [http.IncomingMessage] the server reads:
    [req.url], [req.method] and [req.headers["authorization"]]. *)
Record IncomingMessage : Type :=
  { url : option string;
    method : option string;
    authorization : option string }.

(** [http.ServerResponse]: the headers set so far, the status line, what
    [end] wrote, and whether [end] was called. *)
Record ServerResponse : Type :=
  { headers : list (string * string);
    statusCode : nat;
    body : string;
    finished : bool }.

Definition new_ServerResponse : ServerResponse :=
  {| headers := []; statusCode := 200; body := EmptyString; finished := false |}.

Fixpoint set_field (name value : string) (hs : list (string * string)) : list (string * string) :=
  match hs with
  | [] => [(name, value)]
  | (n, v) :: r =>
      if String.eqb n name then (name, value) :: r else (n, v) :: set_field name value r
  end.

(** [res.setHeader(name, value)]. *)
Definition setHeader (res : ServerResponse) (name value : string) : ServerResponse :=
  {| headers := set_field name value (headers res);
     statusCode := statusCode res;
     body := body res;
     finished := finished res |}.

(** [res.getHeader(name)]. *)
Definition getHeader (res : ServerResponse) (name : string) : option string :=
  record_get (headers res) name.

(** [res.writeHead(status, headers)]: the status, and [headers] merged into
    the ones already set. *)
Definition writeHead (res : ServerResponse) (status : nat) (hs : list (string * string)) : ServerResponse :=
  {| headers := fold_left (fun acc h => set_field (fst h) (snd h) acc) hs (headers res);
     statusCode := status;
     body := body res;
     finished := finished res |}.

(** [res.end(data)]; [res.end()] is [end_ res EmptyString]. *)
Definition end_ (res : ServerResponse) (data : string) : ServerResponse :=
  {| headers := headers res;
     statusCode := statusCode res;
     body := body res ++ data;
     finished := true |}.

Definition dquote : string := String (ascii_of_nat 34) EmptyString.

(** [name="value"], as it stands in a tag or a challenge. *)
Definition quoted (name value : string) : string :=
  name ++ "=" ++ dquote ++ value ++ dquote.

Fixpoint JSString_eqb (a b : JSString) : bool :=
  match a, b with
  | [], [] => true
  | x :: a', y :: b' => N.eqb x y && JSString_eqb a' b'
  | _, _ => false
  end.

(** [authHeader && authHeader.startsWith("Basic ")] followed by the
    comparison of the decoded password: the condition of the inner [if]s of
    [checkBasicAuth]. *)
Definition credentialAccepted `{BufferModule} (this : WebServer) (req : IncomingMessage) : bool :=
  match authorization req with
  | None => false
  | Some authHeader =>
      if negb (String.eqb authHeader EmptyString) && startsWith authHeader "Basic " then
        let encoded := sliceFrom (String.length "Basic ") authHeader in
        let decoded := base64_utf8 encoded in
        (* Accept any username, only check password *)
        let colonIdx := indexOf COLON decoded in
        let providedPassword :=
          if (colonIdx >=? 0)%Z then slice (colonIdx + 1) decoded else decoded in
        JSString_eqb providedPassword (password this)
      else false
  end.

Definition checkBasicAuth `{BufferModule} (this : WebServer)
    (req : IncomingMessage) (res : ServerResponse) : bool * ServerResponse :=
  if negb (nonEmpty (password this)) then (true, res) (* No auth required *)
  else if credentialAccepted this req then (true, res)
  else
    (* Prompt browser to show login dialog *)
    let res := setHeader res "WWW-Authenticate" ("Basic " ++ quoted "realm" "Roo Code") in
    let res := writeHead res 401 [("Content-Type", "text/plain")] in
    let res := end_ res "Unauthorized" in
    (false, res).

Definition serveFile `{PathModule} `{FileSystem} (res : ServerResponse) (filePath : string)
  : ServerResponse * list Event :=
  if negb (existsSync filePath) then
    let res := writeHead res 404 [("Content-Type", "text/plain")] in
    (end_ res "Not Found", [])
  else
    let ext := toLowerCase (path_extname filePath) in
    let contentType :=
      match record_get MIME_TYPES ext with
      | Some t => t
      | None => "application/octet-stream"
      end in
    match readFileSync filePath with
    | inr content =>
        let res := writeHead res 200 [("Content-Type", contentType)] in
        (end_ res content, [])
    | inl err =>
        let res := writeHead res 500 [("Content-Type", "text/plain")] in
        (end_ res "Internal Server Error",
         [appendLine [Text "[WebServer] Error serving file "; Text filePath; Text ": "; Text err]])
    end.

(** The document [serveIndexHtml] builds: the template with its two
    interpolations, each empty when its file name is. *)
Definition html `{PageTemplate} (cssFile jsFile : string) : string :=
  template_head
  ++ (if negb (String.eqb cssFile EmptyString)
      then "<link " ++ quoted "rel" "stylesheet" ++ " " ++ quoted "type" "text/css"
           ++ " " ++ quoted "href" cssFile ++ ">"
      else EmptyString)
  ++ template_body
  ++ (if negb (String.eqb jsFile EmptyString)
      then "<script " ++ quoted "type" "module" ++ " " ++ quoted "src" jsFile ++ "></script>"
      else EmptyString)
  ++ template_tail.

(** Nothing in the [try] block throws ([existsSync] never does), so the
    [catch] branch, a 500, is not reached. *)
Definition serveIndexHtml `{PathModule} `{FileSystem} `{PageTemplate}
    (res : ServerResponse) (buildDir : string) : ServerResponse * list Event :=
  let assetsDir := path_join buildDir "assets" in
  let jsFile := if existsSync (path_join assetsDir "index.js") then "/assets/index.js" else EmptyString in
  let cssFile := if existsSync (path_join assetsDir "index.css") then "/assets/index.css" else EmptyString in
  let res := writeHead res 200 [("Content-Type", "text/html")] in
  (end_ res (html cssFile jsFile), []).

Definition handleRequest `{BufferModule} `{PathModule} `{FileSystem} `{PageTemplate}
    (this : WebServer) (req : IncomingMessage) (res : ServerResponse)
    (buildDir assetsDir audioDir : string) : ServerResponse * list Event :=
  let url :=
    match url req with
    | Some u => if String.eqb u EmptyString then "/" else u
    | None => "/"
    end in
  (* Set CORS headers to allow access from any origin *)
  let res := setHeader res "Access-Control-Allow-Origin" "*" in
  let res := setHeader res "Access-Control-Allow-Methods" "GET, OPTIONS" in
  let res := setHeader res "Access-Control-Allow-Headers" "Content-Type" in
  if match method req with Some m => String.eqb m "OPTIONS" | None => false end then
    let res := writeHead res 204 [] in
    (end_ res EmptyString, [])
  else
    (* Enforce basic auth if a password is configured *)
    let (authorized, res) := checkBasicAuth this req res in
    if negb authorized then (res, [])
    else
      (* Parse the URL path *)
      let urlPath := beforeFirst "?" url in
      (* Route /ext-assets/* to the extension assets directory *)
      if startsWith urlPath "/ext-assets/" then
        serveFile res (path_join assetsDir (sliceFrom (String.length "/ext-assets/") urlPath))
      (* Route /audio/* to the webview-ui audio directory *)
      else if startsWith urlPath "/audio/" then
        serveFile res (path_join audioDir (sliceFrom (String.length "/audio/") urlPath))
      (* Serve the custom index.html for root or SPA routes (no file extension) *)
      else if String.eqb urlPath "/" || String.eqb (path_extname urlPath) EmptyString then
        serveIndexHtml res buildDir
      else
        (* Serve static files from build directory *)
        let filePath := path_join buildDir urlPath in
        (* Check if file exists, otherwise serve index.html for SPA routing *)
        if negb (existsSync filePath) then serveIndexHtml res buildDir
        else serveFile res filePath.

End Http.

(** ** The methods that change the object: a state, trace and error monad *)

Module Relay.

(** A computation on the server object: the object afterwards, the events
    it caused, in order, and either the value it returns or what it throws
    (for an [async] method: what its promise is rejected with). *)
Definition M (A : Type) : Type := WebServer -> WebServer * list Event * (Thrown + A).

Definition ret {A} (a : A) : M A := fun this => (this, [], inr a).

Definition bind {A B} (m : M A) (k : A -> M B) : M B :=
  fun this =>
    match m this with
    | (this1, t1, inl e) => (this1, t1, inl e)
    | (this1, t1, inr a) =>
        match k a this1 with
        | (this2, t2, r) => (this2, (t1 ++ t2)%list, r)
        end
    end.

Definition throw {A} (e : Thrown) : M A := fun this => (this, [], inl e).

Definition get : M WebServer := fun this => (this, [], inr this).

Definition modify (f : WebServer -> WebServer) : M unit := fun this => (f this, [], inr tt).

Definition emit (ev : Event) : M unit := fun this => (this, [ev], inr tt).

(** The outcome of a runtime call that may throw. *)
Definition lift {A} (r : exn + A) : M A :=
  match r with
  | inl e => throw (thrown e)
  | inr a => ret a
  end.

(** [try { m } catch (err) { handler err }]. *)
Definition try_catch {A} (m : M A) (handler : Thrown -> M A) : M A :=
  fun this =>
    match m this with
    | (this1, t1, inl e) =>
        match handler e this1 with
        | (this2, t2, r) => (this2, (t1 ++ t2)%list, r)
        end
    | (this1, t1, inr a) => (this1, t1, inr a)
    end.

Notation "x <- m ;; k" := (bind m (fun x => k))
  (at level 61, m at next level, right associativity).
Notation "m ;; k" := (bind m (fun _ => k))
  (at level 61, right associativity).

(** [for (const x of xs) { body x }]. *)
Fixpoint for_of {X} (xs : list X) (body : X -> M unit) : M unit :=
  match xs with
  | [] => ret tt
  | x :: r => body x ;; for_of r body
  end.

Definition set_port (p : number) (this : WebServer) : WebServer :=
  {| httpServer := httpServer this; wss := wss this; clients := clients this;
     messageHandler := messageHandler this;
     toolbarActionHandler := toolbarActionHandler this;
     port := p; password := password this |}.

Definition set_password (pw : JSString) (this : WebServer) : WebServer :=
  {| httpServer := httpServer this; wss := wss this; clients := clients this;
     messageHandler := messageHandler this;
     toolbarActionHandler := toolbarActionHandler this;
     port := port this; password := pw |}.

Definition set_messageHandler (h : option WebServerMessageHandler) (this : WebServer) : WebServer :=
  {| httpServer := httpServer this; wss := wss this; clients := clients this;
     messageHandler := h;
     toolbarActionHandler := toolbarActionHandler this;
     port := port this; password := password this |}.

Definition set_toolbarActionHandler (h : option WebServerToolbarActionHandler)
    (this : WebServer) : WebServer :=
  {| httpServer := httpServer this; wss := wss this; clients := clients this;
     messageHandler := messageHandler this;
     toolbarActionHandler := h;
     port := port this; password := password this |}.

Definition set_clients (cs : list WebSocket) (this : WebServer) : WebServer :=
  {| httpServer := httpServer this; wss := wss this; clients := cs;
     messageHandler := messageHandler this;
     toolbarActionHandler := toolbarActionHandler this;
     port := port this; password := password this |}.

Definition set_servers (h : option HttpServer) (w : option unit) (this : WebServer) : WebServer :=
  {| httpServer := h; wss := w; clients := clients this;
     messageHandler := messageHandler this;
     toolbarActionHandler := toolbarActionHandler this;
     port := port this; password := password this |}.

Definition getPort : M number :=
  this <- get ;; ret (port this).

(** [password ?? ""]: the argument may be [null] or [undefined] ([None]). *)
Definition configure (port : number) (password : option JSString) : M unit :=
  modify (set_port (if gt_zero port then port else DEFAULT_WEB_SERVER_PORT)) ;;
  modify (set_password (match password with Some pw => pw | None => [] end)).

Definition setMessageHandler (handler : WebServerMessageHandler) : M unit :=
  modify (set_messageHandler (Some handler)).

Definition setToolbarActionHandler (handler : WebServerToolbarActionHandler) : M unit :=
  modify (set_toolbarActionHandler (Some handler)).

Definition isRunning : M bool :=
  this <- get ;;
  ret (match httpServer this with
       | Some server => listening server
       | None => false
       end).

(** Broadcast a message from the extension to all connected browser clients. *)
Definition broadcastToClients `{JSONModule} (message : JSON) : M unit :=
  this <- get ;;
  if Nat.eqb (List.length (clients this)) 0 then ret tt
  else
    let envelope := JObject [("type", JString "extension-message"); ("payload", message)] in
    emit (stringify envelope) ;;
    data <- lift (JSON_stringify envelope) ;;
    for_of (clients this) (fun client =>
      if ReadyState_eqb (readyState client) OPEN then emit (send (ws_id client) data)
      else ret tt).

(** [this.clients.add(ws)]. *)
Definition Set_add (ws : WebSocket) (cs : list WebSocket) : list WebSocket :=
  if existsb (fun c => Nat.eqb (ws_id c) (ws_id ws)) cs then cs else (cs ++ [ws])%list.

(** [this.clients.delete(ws)]. *)
Definition Set_delete (ws : WebSocket) (cs : list WebSocket) : list WebSocket :=
  filter (fun c => negb (Nat.eqb (ws_id c) (ws_id ws))) cs.

(** The listener of the server's [connection] event. *)
Definition onConnection (ws : WebSocket) : M unit :=
  modify (fun this => set_clients (Set_add ws (clients this)) this) ;;
  this <- get ;;
  emit (appendLine [Text "[WebServer] Browser client connected. Total clients: ";
                    Count (List.length (clients this))]).

(** [await handler(value)]: the call, then the rejection if there is one. *)
Definition await_call (ev : Event) (outcome : option Thrown) : M unit :=
  emit ev ;;
  match outcome with
  | Some err => throw err
  | None => ret tt
  end.

(** The listener of a connection's [message] event. Each [if] reads
    [parsed.type] afresh; [&&] evaluates its operands left to right and
    stops at the first falsy one. The [catch] block renders what it caught
    before it writes the line, and nothing catches what that throws. *)
Definition onMessage `{JSONModule} (data : string) : M unit :=
  try_catch
    (parsed <- lift (JSON_parse data) ;;
     (* Messages from browser are wrapped as { type: webview-message, payload } *)
     (type <- lift (getProp parsed "type") ;;
      if strictEqString type "webview-message" then
        payload <- lift (getProp parsed "payload") ;;
        if truthy payload then
          this <- get ;;
          match messageHandler this, payload with
          | Some handler, Some payload =>
              await_call (callMessageHandler payload) (handler payload)
          | _, _ => ret tt
          end
        else ret tt
      else ret tt) ;;
     (* Toolbar action messages: { type: toolbar-action, action } *)
     (type <- lift (getProp parsed "type") ;;
      if strictEqString type "toolbar-action" then
        action <- lift (getProp parsed "action") ;;
        if truthy action then
          this <- get ;;
          match toolbarActionHandler this, action with
          | Some handler, Some action =>
              await_call (callToolbarActionHandler action) (handler action)
          | _, _ => ret tt
          end
        else ret tt
      else ret tt))
    (fun err =>
       line <- lift (render err) ;;
       emit (appendLine [Text "[WebServer] Error handling WebSocket message: "; Text line])).

(** The listener of a connection's [close] event. *)
Definition onClose (ws : WebSocket) : M unit :=
  modify (fun this => set_clients (Set_delete ws (clients this)) this) ;;
  this <- get ;;
  emit (appendLine [Text "[WebServer] Browser client disconnected. Total clients: ";
                    Count (List.length (clients this))]).

(** The listener of a connection's [error] event. *)
Definition onError (ws : WebSocket) (err : exn) : M unit :=
  emit (appendLine [Text "[WebServer] WebSocket error: "; Text err]) ;;
  modify (fun this => set_clients (Set_delete ws (clients this)) this).

(** [start()], given what the call of [listen] does: [inr tt] when the port
    gets bound and the callback runs, [inl err] when [listen] throws [err]
    (a port that is out of range or not an integer). The throw happens in
    the executor of the promise, before the [error] listener is subscribed:
    the promise is rejected with [err] and nothing is written. The [error]
    event of the HTTP server (a port already in use) is not among these
    answers: the socket server attached to the same HTTP server re-emits it
    first, with no listener of its own for it, so the listener subscribed
    here is not reached and nothing settles the promise. *)
Definition start (bound : exn + unit) : M unit :=
  running <- isRunning ;;
  if running then emit (appendLine [Text "[WebServer] Already running."])
  else
    modify (set_servers (Some {| listening := false |}) (Some tt)) ;;
    this <- get ;;
    emit (listen (port this) "0.0.0.0") ;;
    match bound with
    | inr _ =>
        modify (set_servers (Some {| listening := true |}) (Some tt)) ;;
        emit (appendLine [Text "[WebServer] Roo Code web server started on http://0.0.0.0:";
                          Num (port this)])
    | inl err => throw (thrown err)
    end.

(** The frames of one connection, handed to its [message] listener in
    arrival order. A listener whose promise is rejected is an unhandled
    rejection: delivery stops there. *)
Fixpoint deliver `{JSONModule} (frames : list string) : M unit :=
  match frames with
  | [] => ret tt
  | data :: rest => onMessage data ;; deliver rest
  end.

End Relay.

(** ** Models of the runtime, for the examples *)

Module Posix.

(** [path.split("/")]. *)
Fixpoint split_slash (s : string) : list string :=
  match s with
  | EmptyString => [EmptyString]
  | String a r =>
      if Ascii.eqb a "/" then EmptyString :: split_slash r
      else match split_slash r with
           | seg :: segs => String a seg :: segs
           | [] => [String a EmptyString]
           end
  end.

(** [normalizeString] of the runtime, on segments: empty and [.] segments
    are dropped, [..] removes the segment before it, and is kept only above
    the start of a relative path. [stack] holds the result so far, last
    segment first. *)
Fixpoint normalizeSegments (allowAboveRoot : bool) (segs stack : list string) : list string :=
  match segs with
  | [] => rev stack
  | seg :: r =>
      if String.eqb seg EmptyString || String.eqb seg "." then
        normalizeSegments allowAboveRoot r stack
      else if String.eqb seg ".." then
        match stack with
        | top :: below =>
            if String.eqb top ".." then
              normalizeSegments allowAboveRoot r (if allowAboveRoot then ".." :: stack else stack)
            else normalizeSegments allowAboveRoot r below
        | [] => normalizeSegments allowAboveRoot r (if allowAboveRoot then [".."] else [])
        end
      else normalizeSegments allowAboveRoot r (seg :: stack)
  end.

Fixpoint join_slash (segs : list string) : string :=
  match segs with
  | [] => EmptyString
  | [seg] => seg
  | seg :: r => seg ++ "/" ++ join_slash r
  end.

Fixpoint last_char (s : string) : option ascii :=
  match s with
  | EmptyString => None
  | String a EmptyString => Some a
  | String _ r => last_char r
  end.

Definition is_slash (c : option ascii) : bool :=
  match c with
  | Some a => Ascii.eqb a "/"
  | None => false
  end.

(** [path.posix.normalize]. *)
Definition normalize (path : string) : string :=
  if String.eqb path EmptyString then "."
  else
    let isAbsolute := is_slash (String.get 0 path) in
    let trailingSeparator := is_slash (last_char path) in
    let path := join_slash (normalizeSegments (negb isAbsolute) (split_slash path) []) in
    if String.eqb path EmptyString then
      if isAbsolute then "/" else if trailingSeparator then "./" else "."
    else
      let path := if trailingSeparator then path ++ "/" else path in
      if isAbsolute then "/" ++ path else path.

(** [path.posix.join(a, b)]: the non-empty arguments joined by a slash,
    then normalized. *)
Definition join (a b : string) : string :=
  let joined :=
    if String.eqb a EmptyString then b
    else if String.eqb b EmptyString then a
    else a ++ "/" ++ b in
  if String.eqb joined EmptyString then "." else normalize joined.

(** The loop of [path.posix.extname], from the last character down:
    [chars] are the characters at indices [i], [i-1], ..., [0]; the state is
    [(startDot, startPart, end, matchedSlash, preDotState)]. *)
Fixpoint extname_loop (chars : list ascii) (i : Z) (st : Z * Z * Z * bool * Z)
  : Z * Z * Z * bool * Z :=
  match chars with
  | [] => st
  | code :: rest =>
      let '(startDot, startPart, end_, matchedSlash, preDotState) := st in
      if Ascii.eqb code "/" then
        if negb matchedSlash then (startDot, i + 1, end_, matchedSlash, preDotState)%Z
        else extname_loop rest (i - 1)%Z st
      else
        let '(end_, matchedSlash) :=
          if (end_ =? -1)%Z then ((i + 1)%Z, false) else (end_, matchedSlash) in
        let '(startDot, preDotState) :=
          if Ascii.eqb code "." then
            if (startDot =? -1)%Z then (i, preDotState)
            else if negb (preDotState =? 1)%Z then (startDot, 1%Z)
            else (startDot, preDotState)
          else if negb (startDot =? -1)%Z then (startDot, (-1)%Z)
          else (startDot, preDotState) in
        extname_loop rest (i - 1)%Z (startDot, startPart, end_, matchedSlash, preDotState)
  end.

Definition extname (path : string) : string :=
  let n := Z.of_nat (String.length path) in
  let '(startDot, startPart, end_, _, preDotState) :=
    extname_loop (rev (list_ascii_of_string path)) (n - 1)%Z
                 ((-1)%Z, 0%Z, (-1)%Z, true, 0%Z) in
  if (startDot =? -1)%Z || (end_ =? -1)%Z || (preDotState =? 0)%Z
     || ((preDotState =? 1)%Z && (startDot =? end_ - 1)%Z && (startDot =? startPart + 1)%Z)
  then EmptyString
  else substring (Z.to_nat startDot) (Z.to_nat (end_ - startDot)) path.

Definition posix : PathModule :=
  {| path_join := join; path_extname := extname |}.

End Posix.

Module NodeBuffer.

Definition between (lo hi x : N) : bool := (N.leb lo x && N.leb x hi)%bool.

(** The value of a character of the base64 alphabets (standard and URL
    safe, both accepted by [Buffer.from]). *)
Definition unbase64 (a : ascii) : option N :=
  let c := N_of_ascii a in
  if between 65 90 c then Some (c - 65)%N
  else if between 97 122 c then Some (c - 97 + 26)%N
  else if between 48 57 c then Some (c - 48 + 52)%N
  else if N.eqb c 43 || N.eqb c 45 then Some 62%N
  else if N.eqb c 47 || N.eqb c 95 then Some 63%N
  else None.

(** The sextets of the input: characters outside the alphabet are skipped,
    and decoding stops at the first padding character. *)
Fixpoint sextets (s : string) : list N :=
  match s with
  | EmptyString => []
  | String a r =>
      if Ascii.eqb a "=" then []
      else match unbase64 a with
           | Some v => v :: sextets r
           | None => sextets r
           end
  end.

(** Four sextets give three bytes, three give two, two give one. *)
Fixpoint bytes_of_sextets (l : list N) : list N :=
  match l with
  | a :: b :: c :: d :: r =>
      ((a * 4 + b / 16) :: ((b mod 16) * 16 + c / 4) :: ((c mod 4) * 64 + d)
       :: bytes_of_sextets r)%N
  | [a; b; c] => [(a * 4 + b / 16); ((b mod 16) * 16 + c / 4)]%N
  | [a; b] => [(a * 4 + b / 16)%N]
  | _ => []
  end.

(** The UTF-8 decoder, after its lead byte: how many continuation bytes are
    still needed, the code point so far, and the range the next byte must
    be in. *)
Definition Pending : Type := (nat * N * N * N)%type.

Definition REPLACEMENT : N := 65533.

(** A byte met with nothing pending: a code point, or a lead byte. *)
Definition lead (b : N) : list N * option Pending :=
  if N.leb b 127 then ([b], None)
  else if between 194 223 b then ([], Some (1%nat, (b - 192)%N, 128%N, 191%N))
  else if between 224 239 b then
    ([], Some (2%nat, (b - 224)%N,
               if N.eqb b 224 then 160%N else 128%N,
               if N.eqb b 237 then 159%N else 191%N))
  else if between 240 244 b then
    ([], Some (3%nat, (b - 240)%N,
               if N.eqb b 240 then 144%N else 128%N,
               if N.eqb b 244 then 143%N else 191%N))
  else ([REPLACEMENT], None).

(** Code points of a byte sequence; an ill-formed sequence gives U+FFFD and
    decoding resumes at the byte that broke it. *)
Fixpoint utf8_decode (st : option Pending) (bytes : list N) : list N :=
  match bytes with
  | [] => match st with None => [] | Some _ => [REPLACEMENT] end
  | b :: r =>
      match st with
      | None => let (out, st') := lead b in (out ++ utf8_decode st' r)%list
      | Some (needed, cp, lo, hi) =>
          if between lo hi b then
            let cp' := (cp * 64 + (b - 128))%N in
            match needed with
            | 1%nat => cp' :: utf8_decode None r
            | _ => utf8_decode (Some (Nat.pred needed, cp', 128%N, 191%N)) r
            end
          else
            let (out, st') := lead b in
            (REPLACEMENT :: out ++ utf8_decode st' r)%list
      end
  end.

(** UTF-16 code units of a code point. *)
Definition utf16 (cp : N) : list N :=
  if N.ltb cp 65536 then [cp]
  else [(55296 + (cp - 65536) / 1024); (56320 + (cp - 65536) mod 1024)]%N.

Definition decode (encoded : string) : JSString :=
  flat_map utf16 (utf8_decode None (bytes_of_sextets (sextets encoded))).

Definition node_buffer : BufferModule :=
  {| base64_utf8 := decode |}.

End NodeBuffer.

(** ** A small world for the examples *)

Module Examples.

Import Http Relay.

Definition q (s : string) : string := dquote ++ s ++ dquote.

(** The frame [{"type":"webview-message","payload":{"x":1}}]. *)
Definition frame_webview : string :=
  "{" ++ q "type" ++ ":" ++ q "webview-message" ++ "," ++ q "payload" ++ ":{" ++ q "x" ++ ":1}}".

(** The frame [{"type":"unknown"}]. *)
Definition frame_unknown : string :=
  "{" ++ q "type" ++ ":" ++ q "unknown" ++ "}".

(** The frame [{"type":"webview-message","payload":0}]. *)
Definition frame_zero_payload : string :=
  "{" ++ q "type" ++ ":" ++ q "webview-message" ++ "," ++ q "payload" ++ ":0}".

(** The frame [{"type":"toolbar-action","action":"newTask"}]. *)
Definition frame_toolbar : string :=
  "{" ++ q "type" ++ ":" ++ q "toolbar-action" ++ "," ++ q "action" ++ ":" ++ q "newTask" ++ "}".

(** The frame [null], which parses, and the frame [{not json], which does not. *)
Definition frame_null : string := "null".
Definition frame_malformed : string := "{not json".

Definition payload_x1 : JSON := JObject [("x", JNumber (number_of_Z 1))].

Definition parsed_webview : JSON :=
  JObject [("type", JString "webview-message"); ("payload", payload_x1)].

Definition parsed_zero_payload : JSON :=
  JObject [("type", JString "webview-message"); ("payload", JNumber (S754_zero false))].

(** The host message [{foo: 1}] and the text of its envelope,
    [{"type":"extension-message","payload":{"foo":1}}]. *)
Definition message_foo : JSON := JObject [("foo", JNumber (number_of_Z 1))].

Definition envelope_foo_text : string :=
  "{" ++ q "type" ++ ":" ++ q "extension-message" ++ "," ++ q "payload" ++ ":{" ++ q "foo" ++ ":1}}".

(** [JSON.parse] and [JSON.stringify] tabulated on the frames and the
    message above: a table of what the runtime answers there, not a parser. *)
Definition table_parse (data : string) : exn + JSON :=
  if String.eqb data frame_webview then inr parsed_webview
  else if String.eqb data frame_unknown then inr (JObject [("type", JString "unknown")])
  else if String.eqb data frame_zero_payload then inr parsed_zero_payload
  else if String.eqb data frame_toolbar then
    inr (JObject [("type", JString "toolbar-action"); ("action", JString "newTask")])
  else if String.eqb data frame_null then inr JNull
  else inl "SyntaxError: Expected property name or '}' in JSON at position 1".

Definition table_stringify (value : JSON) : exn + string :=
  match value with
  | JObject [("type", JString "extension-message"); ("payload", JObject [("foo", JNumber _)])] =>
      inr envelope_foo_text
  | _ => inl "TypeError: Converting circular structure to JSON"
  end.

Definition json_table : JSONModule :=
  {| JSON_parse := table_parse; JSON_stringify := table_stringify |}.

(** A disk: each path that exists, with what reading it gives. A directory
    exists and cannot be read. *)
Definition files : list (string * (exn + string)) :=
  [ ("/ext/package.json", inr "{ manifest }");
    ("/ext/assets/codicons/codicon.css", inr ".codicon { }");
    ("/ext/assets/codicons", inl "EISDIR: illegal operation on a directory, read");
    ("/ext/webview-ui/build/assets/index.js", inr "bundle();");
    ("/ext/webview-ui/build/favicon.ico", inr "icon") ].

Fixpoint find_file (table : list (string * (exn + string))) (path : string) : option (exn + string) :=
  match table with
  | [] => None
  | (p, r) :: rest => if String.eqb path p then Some r else find_file rest path
  end.

Definition disk : FileSystem :=
  {| existsSync := fun path =>
       match find_file files path with Some _ => true | None => false end;
     readFileSync := fun path =>
       match find_file files path with
       | Some r => r
       | None => inl "ENOENT: no such file or directory"
       end |}.

Definition buildDir : string := "/ext/webview-ui/build".
Definition assetsDir : string := "/ext/assets".
Definition audioDir : string := "/ext/webview-ui/audio".

(** A page template cut down to its skeleton. *)
Definition skeleton : PageTemplate :=
  {| template_head := "<!DOCTYPE html><html><head>";
     template_body := "</head><body>";
     template_tail := "</body></html>" |}.

(** A server configured with the password [secret], with both handlers
    registered: the message handler fulfils, the toolbar handler rejects. *)
Definition secret : JSString := units "secret".

Definition server : WebServer :=
  {| httpServer := Some {| listening := true |};
     wss := Some tt;
     clients := [ {| ws_id := 1; readyState := OPEN |};
                  {| ws_id := 2; readyState := CLOSED |};
                  {| ws_id := 3; readyState := OPEN |} ];
     messageHandler := Some (fun _ => None);
     toolbarActionHandler := Some (fun _ => Some (thrown "Error: no such action"));
     port := number_of_Z 8080;
     password := secret |}.

(** The same server whose message handler rejects. *)
Definition server_failing : WebServer :=
  set_messageHandler (Some (fun _ => Some (thrown "Error: handler failed"))) server.

(** The same server whose message handler rejects with a Symbol. *)
Definition server_symbol : WebServer :=
  set_messageHandler
    (Some (fun _ => Some (unprintable "TypeError: Cannot convert a Symbol value to a string")))
    server.

Definition get (target : string) (auth : option string) : IncomingMessage :=
  {| url := Some target; method := Some "GET"; authorization := auth |}.

(** [Basic <base64("anyuser:secret")>] and [Basic <base64("anyuser:wrong")>]. *)
Definition auth_secret : option string := Some "Basic YW55dXNlcjpzZWNyZXQ=".
Definition auth_wrong : option string := Some "Basic YW55dXNlcjp3cm9uZw==".

(** A request served on the example world, with a fresh response. *)
Definition request (this : WebServer) (req : IncomingMessage) : ServerResponse * list Event :=
  @handleRequest NodeBuffer.node_buffer Posix.posix disk skeleton this req
    new_ServerResponse buildDir assetsDir audioDir.

Definition status (this : WebServer) (req : IncomingMessage) : nat :=
  statusCode (fst (request this req)).

(** The server of the examples with its password removed. *)
Definition open_server : WebServer := set_password [] server.

End Examples.

(** ** The vocabulary of the statements *)

Module Props.

Import Http Relay.

(** The three parts of what a method does. *)
Definition final {A} (r : WebServer * list Event * (Thrown + A)) : WebServer := fst (fst r).
Definition trace {A} (r : WebServer * list Event * (Thrown + A)) : list Event := snd (fst r).
Definition outcome {A} (r : WebServer * list Event * (Thrown + A)) : Thrown + A := snd r.

(** The payloads the message handler was called with, in order. *)
Fixpoint messageCalls (t : list Event) : list JSON :=
  match t with
  | [] => []
  | callMessageHandler p :: r => p :: messageCalls r
  | _ :: r => messageCalls r
  end.

(** The actions the toolbar handler was called with, in order. *)
Fixpoint toolbarCalls (t : list Event) : list JSON :=
  match t with
  | [] => []
  | callToolbarActionHandler a :: r => a :: toolbarCalls r
  | _ :: r => toolbarCalls r
  end.

(** The writes to sockets, in order. *)
Fixpoint writes (t : list Event) : list (nat * string) :=
  match t with
  | [] => []
  | send c d :: r => (c, d) :: writes r
  | _ :: r => writes r
  end.

(** The values serialized, in order. *)
Fixpoint serializations (t : list Event) : list JSON :=
  match t with
  | [] => []
  | stringify v :: r => v :: serializations r
  | _ :: r => serializations r
  end.

Definition isOpen (client : WebSocket) : bool := ReadyState_eqb (readyState client) OPEN.

(** The outbound envelope of a host message. *)
Definition envelope (message : JSON) : JSON :=
  JObject [("type", JString "extension-message"); ("payload", message)].

(** In the spec's words: the text after the first colon, or the whole
    decoded string if no colon is present. *)
Fixpoint afterFirstColon (s : JSString) : option JSString :=
  match s with
  | [] => None
  | c :: r => if N.eqb c COLON then Some r else afterFirstColon r
  end.

Definition passwordPart (decoded : JSString) : JSString :=
  match afterFirstColon decoded with
  | Some r => r
  | None => decoded
  end.

(** The response with the three CORS headers that [handleRequest] sets
    first. *)
Definition cors (res : ServerResponse) : ServerResponse :=
  setHeader
    (setHeader (setHeader res "Access-Control-Allow-Origin" "*")
       "Access-Control-Allow-Methods" "GET, OPTIONS")
    "Access-Control-Allow-Headers" "Content-Type".

Definition isOptions (req : IncomingMessage) : bool :=
  match method req with
  | Some m => String.eqb m "OPTIONS"
  | None => false
  end.

(** The request path, stripped of its query string. *)
Definition urlPath (req : IncomingMessage) : string :=
  beforeFirst "?"
    match url req with
    | Some u => if String.eqb u EmptyString then "/" else u
    | None => "/"
    end.

(** The request passes the access guard. *)
Definition authorized `{BufferModule} (this : WebServer) (req : IncomingMessage) : bool :=
  fst (checkBasicAuth this req new_ServerResponse).

(** The bootstrap page as a response: status 200, [text/html], the
    synthesized document. *)
Definition bootstrapPage `{PathModule} `{FileSystem} `{PageTemplate}
    (res : ServerResponse) (buildDir : string) : ServerResponse :=
  fst (serveIndexHtml res buildDir).

(** [path] is [root] or lies below it. *)
Definition within (root path : string) : bool :=
  String.eqb path root || startsWith path (root ++ "/").

(** A positive integer, as the spec has the port validated. *)
Definition isPositiveInteger (x : number) : bool := gt_zero x && isInteger x.

(** The response of a failed guard. *)
Definition unauthorized (res : ServerResponse) : ServerResponse :=
  end_
    (writeHead (setHeader res "WWW-Authenticate" ("Basic " ++ quoted "realm" "Roo Code"))
       401 [("Content-Type", "text/plain")])
    "Unauthorized".

(** The three CORS headers are set. *)
Definition hasCors (res : ServerResponse) : Prop :=
  getHeader res "Access-Control-Allow-Origin" = Some "*"
  /\ getHeader res "Access-Control-Allow-Methods" = Some "GET, OPTIONS"
  /\ getHeader res "Access-Control-Allow-Headers" = Some "Content-Type".

(** [v.k] when reading it does not throw. *)
Definition field (v : JSON) (k : string) : option JSON :=
  match getProp v k with
  | inr o => o
  | inl _ => None
  end.

(** The line the [catch] of the message listener writes. *)
Definition frameError (err : exn) : Event :=
  appendLine [Text "[WebServer] Error handling WebSocket message: "; Text err].

(** Every value the registered handlers throw or reject with has a text. *)
Definition printableRejections (this : WebServer) : Prop :=
  (forall handler payload err,
      messageHandler this = Some handler -> handler payload = Some err ->
      exists text, err = thrown text)
  /\ (forall handler action err,
         toolbarActionHandler this = Some handler -> handler action = Some err ->
         exists text, err = thrown text).

(** As the spec states the dispatch condition: a frame of type
    [webview-message] that has a [payload] field, with a handler registered,
    has the handler called once with that payload. *)
Definition dispatch_on_payload_presence : Prop :=
  forall (J : JSONModule) (this : WebServer) (data : string) (parsed payload : JSON)
         (handler : WebServerMessageHandler),
    JSON_parse data = inr parsed ->
    getProp parsed "type" = inr (Some (JString "webview-message")) ->
    getProp parsed "payload" = inr (Some payload) ->
    messageHandler this = Some handler ->
    messageCalls (trace (onMessage data this)) = [payload].

(** As the spec states the validation of the port: kept when it is a
    positive integer, replaced by the default otherwise. *)
Definition configure_keeps_only_positive_integers : Prop :=
  forall (p : number) (pw : option JSString) (this : WebServer),
    port (final (configure p pw this))
    = if isPositiveInteger p then p else DEFAULT_WEB_SERVER_PORT.

End Props.

(** ** Shutdown, and the states the public interface can produce *)

Module Lifecycle.

Import Relay.

(** What [isRunning()] answers for an object. *)
Definition running (this : WebServer) : bool :=
  match httpServer this with
  | Some server => listening server
  | None => false
  end.

(** How the promise of [stop()] ends when it is not rejected: fulfilled,
    or never settled (an optional call [x?.close(cb)] on a [null] never
    calls [cb]). *)
Inductive Settled : Type := fulfilled | pending.

(** What [stop()] does outside the object. *)
Inductive Teardown : Type :=
| terminate (client : nat)
| wssClose
| httpClose
| output (line : list Fragment).

(** [stop()], given what the HTTP server's [close] reports to its
    callback: [None] for a clean close, [Some err] for an error. Calling
    [close] ends the listening of the server object in either case. The
    socket server's [close] always calls back. *)
Definition stop (closed : option exn) (this : WebServer)
  : WebServer * list Teardown * (exn + Settled) :=
  if negb (running this) then (this, [], inr fulfilled)
  else
    (* Close all WebSocket connections *)
    let terminated := map (fun client => terminate (ws_id client)) (clients this) in
    let this := set_clients [] this in
    (* Close WebSocket server *)
    match wss this with
    | None => (this, terminated, inr pending)
    | Some _ =>
        let this := set_servers (httpServer this) None this in
        (* Close HTTP server *)
        match httpServer this with
        | None => (this, (terminated ++ [wssClose])%list, inr pending)
        | Some _ =>
            match closed with
            | Some err =>
                (set_servers (Some {| listening := false |}) None this,
                 (terminated ++ [wssClose; httpClose])%list,
                 inl err)
            | None =>
                (set_servers None None this,
                 (terminated ++ [wssClose; httpClose;
                                 output [Text "[WebServer] Server stopped."]])%list,
                 inr fulfilled)
            end
        end
    end.

(** A call of a public method, or an event delivered to a listener that
    [start] installed. *)
Inductive Call : Type :=
| call_configure (p : number) (pw : option JSString)
| call_setMessageHandler (handler : WebServerMessageHandler)
| call_setToolbarActionHandler (handler : WebServerToolbarActionHandler)
| call_start (bound : exn + unit)
| call_stop (closed : option exn)
| call_broadcastToClients (message : JSON)
| event_connection (ws : WebSocket)
| event_message (data : string)
| event_close (ws : WebSocket)
| event_error (ws : WebSocket) (err : exn).

(** The object after a call. *)
Definition after `{JSONModule} (c : Call) (this : WebServer) : WebServer :=
  match c with
  | call_configure p pw => fst (fst (configure p pw this))
  | call_setMessageHandler handler => fst (fst (setMessageHandler handler this))
  | call_setToolbarActionHandler handler => fst (fst (setToolbarActionHandler handler this))
  | call_start bound => fst (fst (start bound this))
  | call_stop closed => fst (fst (stop closed this))
  | call_broadcastToClients message => fst (fst (broadcastToClients message this))
  | event_connection ws => fst (fst (onConnection ws this))
  | event_message data => fst (fst (onMessage data this))
  | event_close ws => fst (fst (onClose ws this))
  | event_error ws err => fst (fst (onError ws err this))
  end.

(** The object after a history of calls on a new server, oldest first. *)
Definition history `{JSONModule} (calls : list Call) : WebServer :=
  fold_left (fun this c => after c this) calls new_WebServer.

End Lifecycle.

(** ** The script of the bootstrap page, and the webview's wrapper *)

Module Page.

(** What the browser side does to its world. *)
Inductive PageEvent : Type :=
| wsSend (data : string)
| dispatchMessageEvent (data : JSON)
| apiPostMessage (message : JSON).

(** [ws && ws.readyState === WebSocket.OPEN], for the script's variable
    [ws]: [null], or a socket in some state. *)
Definition socketOpen (ws : option ReadyState) : bool :=
  match ws with
  | Some OPEN => true
  | _ => false
  end.

(** [sendToolbarAction(action)] of the page script. *)
Definition sendToolbarAction `{JSONModule} (ws : option ReadyState) (action : string)
  : exn + list PageEvent :=
  if socketOpen ws then
    match JSON_stringify (JObject [("type", JString "toolbar-action");
                                   ("action", JString action)]) with
    | inl err => inl err
    | inr data => inr [wsSend data]
    end
  else inr [].

(** [window.__rooWebSocket.send(msg)]. *)
Definition rooWebSocket_send `{JSONModule} (ws : option ReadyState) (msg : JSON)
  : exn + list PageEvent :=
  if socketOpen ws then
    match JSON_stringify (JObject [("type", JString "webview-message");
                                   ("payload", msg)]) with
    | inl err => inl err
    | inr data => inr [wsSend data]
    end
  else inr [].

(** The page's listener of the socket's [message] event: whatever is
    thrown inside is caught and dropped. *)
Definition onPageMessage `{JSONModule} (eventData : string) : list PageEvent :=
  match JSON_parse eventData with
  | inl _ => []
  | inr data =>
      match getProp data "type" with
      | inl _ => []
      | inr type =>
          if strictEqString type "extension-message" then
            match getProp data "payload" with
            | inl _ => []
            | inr payload =>
                if truthy payload then
                  match payload with
                  | Some payload => [dispatchMessageEvent payload]
                  | None => []
                  end
                else []
            end
          else []
      end
  end.

(** The [window] of the page: [window.__rooWebSocket] when the script has
    run (with the script's [ws]), and [localStorage]. *)
Record Window : Type :=
  { rooWebSocket : option (option ReadyState);
    localStorage : list (string * string) }.

(** [localStorage.getItem(key)]: [null] for a key never set. *)
Definition getItem (key : string) (win : Window) : option string :=
  record_get (localStorage win) key.

(** [localStorage.setItem(key, value)]. *)
Definition setItem (key value : string) (win : Window) : Window :=
  {| rooWebSocket := rooWebSocket win;
     localStorage := Http.set_field key value (localStorage win) |}.

(** [VSCodeAPIWrapper]: the API object when [acquireVsCodeApi] exists,
    with the state the host keeps for it. *)
Record VSCodeAPIWrapper : Type :=
  { vsCodeApi : option (option JSON) }.

Definition postMessage `{JSONModule} (this : VSCodeAPIWrapper) (win : Window) (message : JSON)
  : exn + list PageEvent :=
  match vsCodeApi this with
  | Some _ => inr [apiPostMessage message]
  | None =>
      (* Use the shared WebSocket from the toolbar script *)
      match rooWebSocket win with
      | Some ws => rooWebSocket_send ws message
      | None => inr []
      end
  end.

(** [getState()]: [None] is [undefined]. *)
Definition getState `{JSONModule} (this : VSCodeAPIWrapper) (win : Window)
  : exn + option JSON :=
  match vsCodeApi this with
  | Some state => inr state
  | None =>
      match getItem "vscodeState" win with
      | Some state =>
          if negb (String.eqb state EmptyString) then
            match JSON_parse state with
            | inl err => inl err
            | inr v => inr (Some v)
            end
          else inr None
      | None => inr None
      end
  end.

(** [setState(newState)]: the wrapper and the window afterwards, and the
    value returned. [JSON.stringify(undefined)] is [undefined], which
    [setItem] stores as the text [undefined]. *)
Definition setState `{JSONModule} (this : VSCodeAPIWrapper) (win : Window)
    (newState : option JSON) : exn + (VSCodeAPIWrapper * Window * option JSON) :=
  match vsCodeApi this with
  | Some _ => inr ({| vsCodeApi := Some newState |}, win, newState)
  | None =>
      match newState with
      | None => inr (this, setItem "vscodeState" "undefined" win, newState)
      | Some v =>
          match JSON_stringify v with
          | inl err => inl err
          | inr text => inr (this, setItem "vscodeState" text win, newState)
          end
      end
  end.

End Page.

(** ** The settings panel: [WebServerSettings.tsx] *)

Module Settings.

(** [parseInt(text, 10)]. *)
Class NumberModule : Type :=
  { parseInt10 : string -> number }.

(** A call of [setCachedStateField]. *)
Inductive CachedField : Type :=
| webServerPort (val : number)
| webServerPassword (val : option string).

Definition isNaN (x : number) : bool :=
  match x with
  | S754_nan => true
  | _ => false
  end.

(** The [onChange] of the port input, on [e.target.value]. *)
Definition portOnChange `{NumberModule} (value : string) : list CachedField :=
  let val := parseInt10 value in
  if negb (isNaN val) && SFleb (number_of_Z 1024) val && SFleb val (number_of_Z 65535)
  then [webServerPort val]
  else [].

(** The [onChange] of the password input: [e.target.value || undefined]. *)
Definition passwordOnChange (value : string) : list CachedField :=
  [webServerPassword (if String.eqb value EmptyString then None else Some value)].

End Settings.

(** ** More of the example world *)

Module MoreExamples.

Import Examples.

(** The text of the envelope of the message [{"x":1}] sent by the page. *)
Definition envelope_x1 : JSON :=
  JObject [("type", JString "webview-message"); ("payload", payload_x1)].

(** The envelope the server sends for the host message [{foo: 1}]. *)
Definition envelope_foo : JSON :=
  JObject [("type", JString "extension-message"); ("payload", message_foo)].

Definition toolbar_newTask : JSON :=
  JObject [("type", JString "toolbar-action"); ("action", JString "newTask")].

Definition state_text : string := "{" ++ q "foo" ++ ":1}".

(** [JSON.parse] and [JSON.stringify] tabulated on these values, in both
    directions. *)
Definition round_trip_parse (data : string) : exn + JSON :=
  if String.eqb data frame_webview then inr envelope_x1
  else if String.eqb data envelope_foo_text then inr envelope_foo
  else if String.eqb data frame_toolbar then inr toolbar_newTask
  else if String.eqb data state_text then inr message_foo
  else inl "SyntaxError: Unexpected token".

Definition round_trip_stringify (value : JSON) : exn + string :=
  match value with
  | JObject [("type", JString "webview-message"); ("payload", JObject [("x", JNumber _)])] =>
      inr frame_webview
  | JObject [("type", JString "extension-message"); ("payload", JObject [("foo", JNumber _)])] =>
      inr envelope_foo_text
  | JObject [("type", JString "toolbar-action"); ("action", JString "newTask")] =>
      inr frame_toolbar
  | JObject [("foo", JNumber _)] => inr state_text
  | _ => inl "TypeError: Converting circular structure to JSON"
  end.

Definition json_round_trip : JSONModule :=
  {| JSON_parse := round_trip_parse; JSON_stringify := round_trip_stringify |}.

(** A browser window where the page script has run and its socket is
    open, with nothing stored; and a wrapper outside VS Code. *)
Definition browser : Page.Window :=
  {| Page.rooWebSocket := Some (Some OPEN); Page.localStorage := [] |}.

Definition wrapper : Page.VSCodeAPIWrapper := {| Page.vsCodeApi := None |}.

(** [parseInt] tabulated on two inputs of the port field. *)
Definition table_parseInt : Settings.NumberModule :=
  {| Settings.parseInt10 := fun text =>
       if String.eqb text "8080" then number_of_Z 8080
       else if String.eqb text "80" then number_of_Z 80
       else S754_nan |}.

End MoreExamples.

(** ** More vocabulary *)

Module MoreProps.

Import Http Relay Props Lifecycle.

(** The three parts of what [stop] does. *)
Definition stopState (r : WebServer * list Teardown * (exn + Settled)) : WebServer :=
  fst (fst r).
Definition teardown (r : WebServer * list Teardown * (exn + Settled)) : list Teardown :=
  snd (fst r).
Definition settled (r : WebServer * list Teardown * (exn + Settled)) : exn + Settled :=
  snd r.

(** The connections [stop] terminated, in order. *)
Fixpoint terminations (t : list Teardown) : list nat :=
  match t with
  | [] => []
  | terminate c :: r => c :: terminations r
  | _ :: r => terminations r
  end.

(** The lines [stop] wrote to the output channel. *)
Fixpoint outputs (t : list Teardown) : list (list Fragment) :=
  match t with
  | [] => []
  | output line :: r => line :: outputs r
  | _ :: r => outputs r
  end.

(** The ports [start] asked to listen on. *)
Fixpoint listens (t : list Event) : list number :=
  match t with
  | [] => []
  | listen p _ :: r => p :: listens r
  | _ :: r => listens r
  end.

(** A running server has its socket server, and the registry holds each
    socket once. *)
Definition wellFormed (this : WebServer) : Prop :=
  (running this = true -> wss this <> None)
  /\ NoDup (map ws_id (clients this)).

(** No registered connection is the socket [ws]. *)
Definition unregistered (ws : WebSocket) (this : WebServer) : Prop :=
  forall client, In client (clients this) -> ws_id client <> ws_id ws.

(** The statuses [handleRequest] answers with. *)
Definition isAnswerStatus (status : nat) : bool :=
  Nat.eqb status 200 || Nat.eqb status 204 || Nat.eqb status 401
  || Nat.eqb status 404 || Nat.eqb status 500.

(** A parsed value that is neither [null] nor an object. *)
Definition isPrimitiveOrArray (v : JSON) : bool :=
  match v with
  | JNull | JObject _ => false
  | JBool _ | JNumber _ | JString _ | JArray _ => true
  end.

(** The envelopes the page sends. *)
Definition webviewEnvelope (msg : JSON) : JSON :=
  JObject [("type", JString "webview-message"); ("payload", msg)].

Definition toolbarEnvelope (action : string) : JSON :=
  JObject [("type", JString "toolbar-action"); ("action", JString action)].

End MoreProps.

(** * Properties *)

(** ** Strings and headers *)

Module Facts.

Import Http Props.

Lemma append_empty_r (s : string) : s ++ EmptyString = s.
Proof. induction s as [|a s IH]; simpl; [reflexivity | now rewrite IH]. Qed.

Lemma startsWith_app (p r : string) : startsWith (p ++ r) p = true.
Proof.
  induction p as [|a p IH]; simpl.
  - reflexivity.
  - rewrite Ascii.eqb_refl. exact IH.
Qed.

Lemma sliceFrom_app (p r : string) : sliceFrom (String.length p) (p ++ r) = r.
Proof.
  induction p as [|a p IH]; simpl; [reflexivity | exact IH].
Qed.

Lemma startsWith_split (s p : string) :
  startsWith s p = true -> s = p ++ sliceFrom (String.length p) s.
Proof.
  revert s. induction p as [|a p IH]; intros s Hs; simpl in *.
  - reflexivity.
  - destruct s as [|b s]; [discriminate|].
    destruct (Ascii.eqb a b) eqn:E; [|discriminate].
    apply Ascii.eqb_eq in E. subst b. f_equal. now apply IH.
Qed.

Lemma startsWith_iff (s p : string) :
  startsWith s p = true <-> exists r, s = p ++ r.
Proof.
  split.
  - intros Hs. eexists. now apply startsWith_split.
  - intros [r ->]. apply startsWith_app.
Qed.

Lemma JSString_eqb_eq (a b : JSString) : JSString_eqb a b = true <-> a = b.
Proof.
  revert b. induction a as [|x a IH]; intros [|y b]; simpl; split;
    try discriminate; try reflexivity.
  - intros Hab. apply andb_true_iff in Hab as [Hx Ha].
    apply N.eqb_eq in Hx. apply IH in Ha. now subst.
  - intros Hab. injection Hab as -> ->. rewrite N.eqb_refl. simpl. now apply IH.
Qed.

Lemma nonEmpty_false (s : JSString) : nonEmpty s = false <-> s = [].
Proof. destruct s; simpl; split; congruence. Qed.

(** [indexOf] and [slice] find what the spec calls the text after the first
    colon. *)
Lemma indexOf_from_afterFirstColon (s : JSString) (i : Z) :
  match afterFirstColon s with
  | None => indexOf_from COLON s i = (-1)%Z
  | Some r =>
      (i <= indexOf_from COLON s i)%Z
      /\ skipn (Z.to_nat (indexOf_from COLON s i - i + 1)) s = r
  end.
Proof.
  revert i. induction s as [|c s IH]; intros i; simpl.
  - reflexivity.
  - destruct (N.eqb c COLON) eqn:E.
    + split; [lia|]. replace (i - i + 1)%Z with 1%Z by lia. reflexivity.
    + specialize (IH (i + 1)%Z). destruct (afterFirstColon s) as [r|].
      * destruct IH as [Hle Hskip]. split; [lia|].
        replace (Z.to_nat (indexOf_from COLON s (i + 1) - i + 1))
          with (S (Z.to_nat (indexOf_from COLON s (i + 1) - (i + 1) + 1))) by lia.
        exact Hskip.
      * exact IH.
Qed.

Lemma providedPassword_passwordPart (decoded : JSString) :
  (if (indexOf COLON decoded >=? 0)%Z
   then slice (indexOf COLON decoded + 1) decoded
   else decoded) = passwordPart decoded.
Proof.
  unfold indexOf, slice, passwordPart.
  pose proof (indexOf_from_afterFirstColon decoded 0) as Hi.
  destruct (afterFirstColon decoded) as [r|].
  - destruct Hi as [Hle Hskip].
    destruct (Z.geb_spec (indexOf_from COLON decoded 0) 0) as [_|Hlt]; [|lia].
    rewrite Z.sub_0_r in Hskip. exact Hskip.
  - rewrite Hi. reflexivity.
Qed.

Lemma afterFirstColon_user (user rest : JSString) :
  ~ In COLON user -> afterFirstColon (user ++ COLON :: rest)%list = Some rest.
Proof.
  induction user as [|c user IH]; intros Hnot; simpl.
  - reflexivity.
  - destruct (N.eqb_spec c COLON) as [->|_].
    + exfalso. apply Hnot. now left.
    + apply IH. intros Hin. apply Hnot. now right.
Qed.

Lemma record_get_set_field_same (name value : string) (hs : list (string * string)) :
  record_get (set_field name value hs) name = Some value.
Proof.
  induction hs as [|[n v] hs IH]; simpl.
  - now rewrite String.eqb_refl.
  - destruct (String.eqb n name) eqn:E; simpl.
    + now rewrite String.eqb_refl.
    + rewrite String.eqb_sym, E. exact IH.
Qed.

Lemma record_get_set_field_other (name value key : string) (hs : list (string * string)) :
  name <> key ->
  record_get (set_field name value hs) key = record_get hs key.
Proof.
  intros Hne. induction hs as [|[n v] hs IH]; simpl.
  - destruct (String.eqb_spec key name); [congruence | reflexivity].
  - destruct (String.eqb_spec n name) as [->|Hn]; simpl.
    + destruct (String.eqb_spec key name); [congruence | reflexivity].
    + destruct (String.eqb_spec key n); [reflexivity | exact IH].
Qed.

Lemma getHeader_setHeader_same (res : ServerResponse) (name value : string) :
  getHeader (setHeader res name value) name = Some value.
Proof. apply record_get_set_field_same. Qed.

Lemma getHeader_setHeader_other (res : ServerResponse) (name value key : string) :
  name <> key -> getHeader (setHeader res name value) key = getHeader res key.
Proof. apply record_get_set_field_other. Qed.

Lemma getHeader_writeHead_one_same (res : ServerResponse) (status : nat) (name value : string) :
  getHeader (writeHead res status [(name, value)]) name = Some value.
Proof. apply record_get_set_field_same. Qed.

Lemma getHeader_writeHead_one_other (res : ServerResponse) (status : nat)
    (name value key : string) :
  name <> key -> getHeader (writeHead res status [(name, value)]) key = getHeader res key.
Proof. apply record_get_set_field_other. Qed.

Lemma getHeader_writeHead_none (res : ServerResponse) (status : nat) (key : string) :
  getHeader (writeHead res status []) key = getHeader res key.
Proof. reflexivity. Qed.

Lemma getHeader_end (res : ServerResponse) (data key : string) :
  getHeader (end_ res data) key = getHeader res key.
Proof. reflexivity. Qed.

End Facts.

(** ** The access guard *)

Module Guard.

Import Http Props Facts.

Section AccessGuard.

Context `{BufferModule} `{PathModule} `{FileSystem} `{PageTemplate}.

(** The inner condition of [checkBasicAuth], in the spec's words. *)
Lemma credentialAccepted_iff (this : WebServer) (req : IncomingMessage) :
  credentialAccepted this req = true <->
  exists encoded,
    authorization req = Some ("Basic " ++ encoded)
    /\ passwordPart (base64_utf8 encoded) = password this.
Proof.
  unfold credentialAccepted. destruct (authorization req) as [authHeader|].
  - destruct (startsWith authHeader "Basic ") eqn:Hbasic.
    + pose proof (startsWith_split _ _ Hbasic) as Hsplit.
      destruct (String.eqb_spec authHeader EmptyString) as [->|_]; [discriminate|].
      cbv beta iota zeta delta [negb andb].
      rewrite providedPassword_passwordPart, JSString_eqb_eq.
      split.
      * intros Hpw. eexists. split; [f_equal; exact Hsplit | exact Hpw].
      * intros [encoded [Hhdr Hpw]]. injection Hhdr as ->.
        exact Hpw.
    + rewrite andb_false_r. split; [discriminate|].
      intros [encoded [Hhdr _]]. injection Hhdr as ->. discriminate Hbasic.
  - split; [discriminate|]. intros [encoded [Hhdr _]]. discriminate.
Qed.

Lemma checkBasicAuth_cases (this : WebServer) (req : IncomingMessage) (res : ServerResponse) :
  checkBasicAuth this req res =
  if negb (nonEmpty (password this)) || credentialAccepted this req
  then (true, res) else (false, unauthorized res).
Proof.
  unfold checkBasicAuth, unauthorized.
  destruct (negb (nonEmpty (password this))); [reflexivity|].
  destruct (credentialAccepted this req); reflexivity.
Qed.

Lemma authorized_any_response (this : WebServer) (req : IncomingMessage) (res : ServerResponse) :
  fst (checkBasicAuth this req res) = authorized this req.
Proof.
  unfold authorized. rewrite !checkBasicAuth_cases.
  destruct (negb (nonEmpty (password this)) || credentialAccepted this req); reflexivity.
Qed.

(** [handleRequest] past the preflight answer: the guard, then nothing
    more when it fails. *)
Lemma handleRequest_guard_failed (this : WebServer) (req : IncomingMessage)
    (res : ServerResponse) (buildDir assetsDir audioDir : string) :
  isOptions req = false ->
  authorized this req = false ->
  handleRequest this req res buildDir assetsDir audioDir = (unauthorized (cors res), []).
Proof.
  intros Hopt Hauth. unfold handleRequest.
  unfold isOptions in Hopt. rewrite Hopt.
  fold (cors res).
  rewrite <- (authorized_any_response this req (cors res)) in Hauth.
  rewrite checkBasicAuth_cases in *.
  destruct (negb (nonEmpty (password this)) || credentialAccepted this req);
    [discriminate | reflexivity].
Qed.

(** C1. With a password configured, [checkBasicAuth] accepts a request
    exactly when its Authorization header is [Basic ] followed by text whose
    decoding, taken after the first colon (or whole without a colon), is the
    configured password, whatever the user name; an accepted request leaves
    the response untouched; a rejected one (wrong password, no header,
    another scheme) gets status 401, the [WWW-Authenticate] challenge, a
    [text/plain] body, and [handleRequest] does nothing after it. With no
    password configured every request passes, the response untouched. *)
Theorem checkBasicAuth_accepts_exactly_the_password
    (this : WebServer) (req : IncomingMessage) (res : ServerResponse)
    (buildDir assetsDir audioDir : string) :
  let result := checkBasicAuth this req res in
  (password this = [] -> result = (true, res))
  /\ (password this <> [] ->
      (fst result = true <->
       exists encoded,
         authorization req = Some ("Basic " ++ encoded)
         /\ passwordPart (base64_utf8 encoded) = password this)
      /\ (forall (user : JSString) (encoded : string),
             ~ In COLON user ->
             authorization req = Some ("Basic " ++ encoded) ->
             base64_utf8 encoded = (user ++ COLON :: password this)%list ->
             fst result = true)
      /\ (authorization req = None -> fst result = false)
      /\ (forall header, authorization req = Some header ->
                         startsWith header "Basic " = false -> fst result = false)
      /\ (fst result = true -> snd result = res)
      /\ (fst result = false ->
          statusCode (snd result) = 401
          /\ getHeader (snd result) "WWW-Authenticate"
             = Some ("Basic realm=" ++ dquote ++ "Roo Code" ++ dquote)
          /\ getHeader (snd result) "Content-Type" = Some "text/plain"
          /\ body (snd result) = body res ++ "Unauthorized"
          /\ finished (snd result) = true
          /\ (isOptions req = false ->
              handleRequest this req res buildDir assetsDir audioDir
              = (snd (checkBasicAuth this req (cors res)), [])))).
Proof.
  intros result. subst result. split.
  - intros Hpw. rewrite checkBasicAuth_cases, Hpw. reflexivity.
  - intros Hpw.
    assert (Hne : negb (nonEmpty (password this)) = false).
    { destruct (password this); [congruence | reflexivity]. }
    assert (Hfst : fst (checkBasicAuth this req res) = credentialAccepted this req).
    { rewrite checkBasicAuth_cases, Hne. simpl.
      destruct (credentialAccepted this req); reflexivity. }
    assert (Hrej : credentialAccepted this req = false ->
                   forall r, checkBasicAuth this req r = (false, unauthorized r)).
    { intros Hacc r. rewrite checkBasicAuth_cases, Hne, Hacc. reflexivity. }
    rewrite Hfst.
    split; [apply credentialAccepted_iff|].
    split.
    { intros user encoded Hnot Hhdr Hdec. apply credentialAccepted_iff.
      exists encoded. split; [exact Hhdr|].
      unfold passwordPart. rewrite Hdec, afterFirstColon_user by exact Hnot.
      reflexivity. }
    split.
    { intros Hnone. unfold credentialAccepted. now rewrite Hnone. }
    split.
    { intros header Hhdr Hscheme. unfold credentialAccepted.
      rewrite Hhdr, Hscheme, andb_false_r. reflexivity. }
    split.
    { intros Hacc. rewrite checkBasicAuth_cases, Hacc, orb_true_r. reflexivity. }
    intros Hacc. rewrite !(Hrej Hacc). unfold unauthorized. simpl snd.
    split; [reflexivity|].
    split.
    { rewrite getHeader_end, getHeader_writeHead_one_other by discriminate.
      apply getHeader_setHeader_same. }
    split.
    { rewrite getHeader_end. apply getHeader_writeHead_one_same. }
    split; [reflexivity|].
    split; [reflexivity|].
    intros Hopt. apply handleRequest_guard_failed; [exact Hopt|].
    rewrite <- (authorized_any_response this req res), Hfst. exact Hacc.
Qed.

End AccessGuard.

End Guard.

(** ** The static asset resolver *)

Module Resolver.

Import Http Props Facts Guard.

Lemma hasCors_cors (res : ServerResponse) : hasCors (cors res).
Proof.
  unfold hasCors, cors. repeat split.
  - rewrite !getHeader_setHeader_other by discriminate. apply getHeader_setHeader_same.
  - rewrite getHeader_setHeader_other by discriminate. apply getHeader_setHeader_same.
  - apply getHeader_setHeader_same.
Qed.

Lemma hasCors_end (res : ServerResponse) (data : string) :
  hasCors res -> hasCors (end_ res data).
Proof. intros Hc. exact Hc. Qed.

Lemma hasCors_writeHead_type (res : ServerResponse) (status : nat) (type : string) :
  hasCors res -> hasCors (writeHead res status [("Content-Type", type)]).
Proof.
  intros [Ho [Hm Hh]]. unfold hasCors.
  rewrite !getHeader_writeHead_one_other by discriminate. now repeat split.
Qed.

Lemma hasCors_unauthorized (res : ServerResponse) :
  hasCors res -> hasCors (unauthorized res).
Proof.
  intros [Ho [Hm Hh]]. unfold unauthorized.
  apply hasCors_end, hasCors_writeHead_type. unfold hasCors.
  rewrite !getHeader_setHeader_other by discriminate. now repeat split.
Qed.

Section StaticAssets.

Context `{BufferModule} `{PathModule} `{FileSystem} `{PageTemplate}.

(** [serveFile] answers 404 exactly when the file is absent, else 200 or 500. *)
Lemma serveFile_status (res : ServerResponse) (filePath : string) :
  statusCode (fst (serveFile res filePath)) =
  if existsSync filePath then
    match readFileSync filePath with inr _ => 200 | inl _ => 500 end
  else 404.
Proof.
  unfold serveFile. destruct (existsSync filePath); simpl; [|reflexivity].
  destruct (readFileSync filePath); reflexivity.
Qed.

Lemma serveFile_missing (res : ServerResponse) (filePath : string) :
  existsSync filePath = false ->
  serveFile res filePath
  = (end_ (writeHead res 404 [("Content-Type", "text/plain")]) "Not Found", []).
Proof. intros Hno. unfold serveFile. rewrite Hno. reflexivity. Qed.

Lemma hasCors_serveFile (res : ServerResponse) (filePath : string) :
  hasCors res -> hasCors (fst (serveFile res filePath)).
Proof.
  intros Hc. unfold serveFile. destruct (existsSync filePath); simpl.
  - destruct (readFileSync filePath); simpl;
      now apply hasCors_end, hasCors_writeHead_type.
  - now apply hasCors_end, hasCors_writeHead_type.
Qed.

Lemma hasCors_serveIndexHtml (res : ServerResponse) (buildDir : string) :
  hasCors res -> hasCors (fst (serveIndexHtml res buildDir)).
Proof.
  intros Hc. unfold serveIndexHtml. simpl.
  now apply hasCors_end, hasCors_writeHead_type.
Qed.

(** [handleRequest] once the preflight answer and the guard are behind:
    the routing of an authorized request. *)
Lemma handleRequest_routing (this : WebServer) (req : IncomingMessage)
    (res : ServerResponse) (buildDir assetsDir audioDir : string) :
  isOptions req = false ->
  authorized this req = true ->
  handleRequest this req res buildDir assetsDir audioDir =
  let res := cors res in
  let urlPath := urlPath req in
  if startsWith urlPath "/ext-assets/" then
    serveFile res (path_join assetsDir (sliceFrom (String.length "/ext-assets/") urlPath))
  else if startsWith urlPath "/audio/" then
    serveFile res (path_join audioDir (sliceFrom (String.length "/audio/") urlPath))
  else if String.eqb urlPath "/" || String.eqb (path_extname urlPath) EmptyString then
    serveIndexHtml res buildDir
  else if negb (existsSync (path_join buildDir urlPath)) then serveIndexHtml res buildDir
  else serveFile res (path_join buildDir urlPath).
Proof.
  intros Hopt Hauth. unfold handleRequest.
  unfold isOptions in Hopt. rewrite Hopt.
  fold (cors res).
  rewrite <- (authorized_any_response this req (cors res)) in Hauth.
  rewrite checkBasicAuth_cases in *.
  destruct (negb (nonEmpty (password this)) || credentialAccepted this req);
    [reflexivity | discriminate].
Qed.

(** A missing file below [/ext-assets/] is a 404 with a plaintext body. *)
Lemma ext_assets_missing_is_404 (this : WebServer) (req : IncomingMessage)
    (res : ServerResponse) (buildDir assetsDir audioDir : string) :
  isOptions req = false ->
  authorized this req = true ->
  startsWith (urlPath req) "/ext-assets/" = true ->
  existsSync (path_join assetsDir (sliceFrom (String.length "/ext-assets/") (urlPath req))) = false ->
  handleRequest this req res buildDir assetsDir audioDir
  = (end_ (writeHead (cors res) 404 [("Content-Type", "text/plain")]) "Not Found", []).
Proof.
  intros Hopt Hauth Hext Hno.
  rewrite handleRequest_routing by assumption.
  cbv zeta. rewrite Hext. now apply serveFile_missing.
Qed.

(** C4. An authorized request that is not a preflight and whose path lies
    outside [/ext-assets/] and [/audio/] is never answered 404. When the
    path is [/] or has no extension the answer is the bootstrap page; when
    the file resolved under the build root is absent the answer is the
    bootstrap page too; and the bootstrap page is status 200, [text/html],
    with the synthesized document as its body. *)
Theorem spa_fallback_never_404 (this : WebServer) (req : IncomingMessage)
    (res : ServerResponse) (buildDir assetsDir audioDir : string) :
  isOptions req = false ->
  authorized this req = true ->
  startsWith (urlPath req) "/ext-assets/" = false ->
  startsWith (urlPath req) "/audio/" = false ->
  let answer := handleRequest this req res buildDir assetsDir audioDir in
  statusCode (fst answer) <> 404
  /\ (urlPath req = "/" \/ path_extname (urlPath req) = EmptyString ->
      answer = (bootstrapPage (cors res) buildDir, []))
  /\ (existsSync (path_join buildDir (urlPath req)) = false ->
      answer = (bootstrapPage (cors res) buildDir, []))
  /\ statusCode (bootstrapPage (cors res) buildDir) = 200
  /\ getHeader (bootstrapPage (cors res) buildDir) "Content-Type" = Some "text/html"
  /\ body (bootstrapPage (cors res) buildDir)
     = body res
       ++ html
            (if existsSync (path_join (path_join buildDir "assets") "index.css")
             then "/assets/index.css" else EmptyString)
            (if existsSync (path_join (path_join buildDir "assets") "index.js")
             then "/assets/index.js" else EmptyString).
Proof.
  intros Hopt Hauth Hext Haudio answer. subst answer.
  rewrite handleRequest_routing by assumption.
  cbv zeta. rewrite Hext, Haudio.
  assert (Hpage : forall r, serveIndexHtml r buildDir = (bootstrapPage r buildDir, [])).
  { intros r. reflexivity. }
  split.
  { destruct (String.eqb (urlPath req) "/" || String.eqb (path_extname (urlPath req)) EmptyString).
    - simpl. discriminate.
    - destruct (existsSync (path_join buildDir (urlPath req))) eqn:Hex; simpl.
      + rewrite serveFile_status, Hex.
        destruct (readFileSync (path_join buildDir (urlPath req))); discriminate.
      + discriminate. }
  split.
  { intros [Hroot | Hnoext].
    - rewrite Hroot. simpl. apply Hpage.
    - rewrite Hnoext, String.eqb_refl, orb_true_r. apply Hpage. }
  split.
  { intros Hno. rewrite Hno. simpl.
    destruct (String.eqb (urlPath req) "/" || String.eqb (path_extname (urlPath req)) EmptyString);
      apply Hpage. }
  split; [reflexivity|].
  split.
  { unfold bootstrapPage, serveIndexHtml. simpl fst.
    rewrite getHeader_end. apply getHeader_writeHead_one_same. }
  reflexivity.
Qed.

(** C6. Whatever the request, the answer carries the three CORS headers;
    a request whose method is OPTIONS is answered 204 with nothing written
    to the body, whatever the password, the credentials and the disk: the
    guard is not consulted, so the answer is never a 401. *)
Theorem cors_headers_and_preflight (this : WebServer) (req : IncomingMessage)
    (res : ServerResponse) (buildDir assetsDir audioDir : string) :
  let answer := handleRequest this req res buildDir assetsDir audioDir in
  getHeader (fst answer) "Access-Control-Allow-Origin" = Some "*"
  /\ getHeader (fst answer) "Access-Control-Allow-Methods" = Some "GET, OPTIONS"
  /\ getHeader (fst answer) "Access-Control-Allow-Headers" = Some "Content-Type"
  /\ (method req = Some "OPTIONS" ->
      answer = (end_ (writeHead (cors res) 204 []) EmptyString, [])
      /\ statusCode (fst answer) = 204
      /\ statusCode (fst answer) <> 401
      /\ body (fst answer) = body res
      /\ finished (fst answer) = true
      /\ getHeader (fst answer) "WWW-Authenticate" = getHeader res "WWW-Authenticate")
  /\ (method req = Some "OPTIONS" ->
      handleRequest this req new_ServerResponse buildDir assetsDir audioDir
      = ({| headers := [("Access-Control-Allow-Origin", "*");
                        ("Access-Control-Allow-Methods", "GET, OPTIONS");
                        ("Access-Control-Allow-Headers", "Content-Type")];
            statusCode := 204;
            body := EmptyString;
            finished := true |}, [])).
Proof.
  intros answer. subst answer.
  assert (Hcors : hasCors (fst (handleRequest this req res buildDir assetsDir audioDir))).
  { destruct (isOptions req) eqn:Hopt.
    - unfold handleRequest. unfold isOptions in Hopt. rewrite Hopt. simpl fst.
      apply hasCors_end. exact (hasCors_cors res).
    - destruct (authorized this req) eqn:Hauth.
      + rewrite handleRequest_routing by assumption. cbv zeta.
        repeat match goal with
               | |- context [if ?c then _ else _] => destruct c
               end;
          first [apply hasCors_serveFile | apply hasCors_serveIndexHtml];
          apply hasCors_cors.
      + rewrite handleRequest_guard_failed by assumption. simpl fst.
        apply hasCors_unauthorized, hasCors_cors. }
  destruct Hcors as [Ho [Hm Hh]].
  split; [exact Ho|]. split; [exact Hm|]. split; [exact Hh|].
  split.
  - intros Hmethod. unfold handleRequest. rewrite Hmethod. simpl.
    repeat split; try reflexivity; try discriminate.
    + apply append_empty_r.
    + unfold getHeader. simpl.
      rewrite !record_get_set_field_other by discriminate. reflexivity.
  - intros Hmethod. unfold handleRequest. rewrite Hmethod. reflexivity.
Qed.

End StaticAssets.

(** C3. The path served for [/ext-assets/../package.json] is not below the
    extension-assets root: [path.join] resolves the [..] segment, and the
    file next to the root, the package manifest, is served with status 200. *)
Theorem ext_assets_path_escapes_the_root :
  let target := "/ext-assets/../package.json" in
  let rest := sliceFrom (String.length "/ext-assets/") target in
  let served := Posix.join Examples.assetsDir rest in
  served = "/ext/package.json"
  /\ within Examples.assetsDir served = false
  /\ @handleRequest NodeBuffer.node_buffer Posix.posix Examples.disk Examples.skeleton
       Examples.server (Examples.get target Examples.auth_secret) new_ServerResponse
       Examples.buildDir Examples.assetsDir Examples.audioDir
     = ({| headers := [("Access-Control-Allow-Origin", "*");
                       ("Access-Control-Allow-Methods", "GET, OPTIONS");
                       ("Access-Control-Allow-Headers", "Content-Type");
                       ("Content-Type", "application/json")];
           statusCode := 200;
           body := "{ manifest }";
           finished := true |}, []).
Proof. repeat split; vm_compute; reflexivity. Qed.

End Resolver.

(** ** The message relay *)

Module Dispatch.

Import Http Relay Props Facts.

Lemma strictEqString_exclusive (v : option JSON) (a b : string) :
  strictEqString v a = true -> strictEqString v b = true -> a = b.
Proof.
  destruct v as [[| | |s| |]|]; simpl; try discriminate.
  intros Ha Hb. apply String.eqb_eq in Ha, Hb. congruence.
Qed.

Lemma truthy_Some (v : option JSON) : truthy v = true -> exists p, v = Some p.
Proof. destruct v as [p|]; [now exists p | discriminate]. Qed.

(** One case analysis of the message listener: on what [JSON.parse]
    answers, on the kind of the parsed value, on each guard, on each
    handler and what it answers. *)
Ltac frame_case :=
  match goal with
  | |- context [JSON_parse ?d] => destruct (JSON_parse d) as [?err|?parsed] eqn:?Hparse
  | |- context [match ?v with JNull => _ | _ => _ end] => is_var v; destruct v
  | |- context [strictEqString ?t ?l] => destruct (strictEqString t l) eqn:?Htype
  | |- context [truthy ?p] => destruct (truthy p) eqn:?Htruthy
  | |- context [match ?v with thrown _ => _ | unprintable _ => _ end] =>
      is_var v; destruct v
  | |- context [match ?o with Some _ => _ | None => _ end] => destruct o eqn:?Hopt
  end.

Ltac run_frame :=
  cbv [onMessage try_catch bind lift throw ret get emit await_call getProp render
       final trace outcome frameError field];
  repeat (cbv beta iota zeta; frame_case);
  cbv beta iota zeta; cbn [fst snd app].

(** The two guards cannot both hold. *)
Ltac exclusive_types :=
  match goal with
  | Ha : strictEqString ?v "webview-message" = true,
    Hb : strictEqString ?v "toolbar-action" = true |- _ =>
      discriminate (strictEqString_exclusive v _ _ Ha Hb)
  end.

Section Frames.

Context `{JSONModule}.

Lemma bind_ret {A B} (a : A) (k : A -> M B) (this : WebServer) :
  bind (ret a) k this = k a this.
Proof. unfold bind, ret. destruct (k a this) as [[s t] r]. reflexivity. Qed.

Lemma bind_emit {B} (ev : Event) (k : unit -> M B) (this : WebServer) :
  bind (emit ev) k this
  = (final (k tt this), ev :: trace (k tt this), outcome (k tt this)).
Proof. unfold bind, emit. destruct (k tt this) as [[s t] r]. reflexivity. Qed.

(** A rejection without a text contradicts [printableRejections]. *)
Ltac printable_only :=
  match goal with
  | Hp : printableRejections ?s,
    Hh : messageHandler ?s = Some ?h,
    Hr : ?h _ = Some (unprintable _) |- _ =>
      let text := fresh "text" in
      let Heq := fresh "Heq" in
      destruct (proj1 Hp _ _ _ Hh Hr) as [text Heq]; discriminate Heq
  | Hp : printableRejections ?s,
    Hh : toolbarActionHandler ?s = Some ?h,
    Hr : ?h _ = Some (unprintable _) |- _ =>
      let text := fresh "text" in
      let Heq := fresh "Heq" in
      destruct (proj2 Hp _ _ _ Hh Hr) as [text Heq]; discriminate Heq
  end.

(** The listener leaves the object as it was. *)
Lemma onMessage_final (data : string) (this : WebServer) :
  final (onMessage data this) = this.
Proof. run_frame; reflexivity. Qed.

(** With handlers whose rejections have a text, the listener's promise is
    fulfilled. *)
Lemma onMessage_settles (data : string) (this : WebServer) :
  printableRejections this ->
  final (onMessage data this) = this /\ outcome (onMessage data this) = inr tt.
Proof.
  intros Hprint. split; [apply onMessage_final|].
  run_frame; try reflexivity; printable_only.
Qed.

Lemma onMessage_eta (data : string) (this : WebServer) :
  printableRejections this ->
  onMessage data this = (this, trace (onMessage data this), inr tt).
Proof.
  intros Hprint.
  destruct (onMessage_settles data this Hprint) as [Hf Ho].
  destruct (onMessage data this) as [[s t] r]. unfold final, outcome, trace in *.
  simpl in *. now subst.
Qed.

(** The calls of the message handler that a frame causes. *)
Lemma onMessage_messageCalls (data : string) (this : WebServer) (parsed : JSON) :
  JSON_parse data = inr parsed ->
  messageCalls (trace (onMessage data this)) =
  if strictEqString (field parsed "type") "webview-message"
     && truthy (field parsed "payload")
  then match messageHandler this, field parsed "payload" with
       | Some _, Some payload => [payload]
       | _, _ => []
       end
  else [].
Proof.
  intros Hp.
  cbv [onMessage try_catch bind lift throw ret get emit await_call getProp render
       trace field].
  rewrite Hp.
  repeat (cbv beta iota zeta; frame_case);
    cbv beta iota zeta; cbn [fst snd app messageCalls andb];
    try reflexivity; try discriminate.
Qed.

Lemma onMessage_at_most_one_call (data : string) (this : WebServer) :
  (messageCalls (trace (onMessage data this)) = []
   \/ toolbarCalls (trace (onMessage data this)) = [])
  /\ List.length (messageCalls (trace (onMessage data this)))
     + List.length (toolbarCalls (trace (onMessage data this))) <= 1.
Proof.
  run_frame; try exclusive_types; simpl; split; try lia; auto.
Qed.

Lemma onMessage_parse_failure (data : string) (this : WebServer) (err : exn) :
  JSON_parse data = inl err ->
  trace (onMessage data this) = [frameError err].
Proof.
  intros Hp. cbv [onMessage try_catch bind lift throw ret emit render trace frameError].
  rewrite Hp. reflexivity.
Qed.

Lemma onMessage_handler_rejects (data : string) (this : WebServer)
    (parsed payload : JSON) (handler : WebServerMessageHandler) (err : exn) :
  JSON_parse data = inr parsed ->
  getProp parsed "type" = inr (Some (JString "webview-message")) ->
  getProp parsed "payload" = inr (Some payload) ->
  truthy (Some payload) = true ->
  messageHandler this = Some handler ->
  handler payload = Some (thrown err) ->
  trace (onMessage data this) = [callMessageHandler payload; frameError err].
Proof.
  intros Hp Ht Hpl Htr Hh He.
  cbv [onMessage try_catch bind lift throw ret get emit await_call render trace frameError].
  rewrite Hp. cbv beta iota zeta. rewrite Ht. cbv beta iota zeta.
  change (strictEqString (Some (JString "webview-message")) "webview-message") with true.
  cbv beta iota zeta. rewrite Hpl. cbv beta iota zeta. rewrite Htr.
  cbv beta iota zeta. rewrite Hh. cbv beta iota zeta. rewrite He. reflexivity.
Qed.

Lemma onMessage_toolbar_rejects (data : string) (this : WebServer)
    (parsed action : JSON) (handler : WebServerToolbarActionHandler) (err : exn) :
  JSON_parse data = inr parsed ->
  getProp parsed "type" = inr (Some (JString "toolbar-action")) ->
  getProp parsed "action" = inr (Some action) ->
  truthy (Some action) = true ->
  toolbarActionHandler this = Some handler ->
  handler action = Some (thrown err) ->
  trace (onMessage data this) = [callToolbarActionHandler action; frameError err].
Proof.
  intros Hp Ht Hac Htr Hh He.
  cbv [onMessage try_catch bind lift throw ret get emit await_call render trace frameError].
  rewrite Hp. cbv beta iota zeta. rewrite Ht. cbv beta iota zeta.
  change (strictEqString (Some (JString "toolbar-action")) "webview-message") with false.
  change (strictEqString (Some (JString "toolbar-action")) "toolbar-action") with true.
  cbv beta iota zeta. rewrite Hac. cbv beta iota zeta. rewrite Htr.
  cbv beta iota zeta. rewrite Hh. cbv beta iota zeta. rewrite He. reflexivity.
Qed.

Lemma onMessage_handler_fulfils (data : string) (this : WebServer)
    (parsed payload : JSON) (handler : WebServerMessageHandler) :
  JSON_parse data = inr parsed ->
  getProp parsed "type" = inr (Some (JString "webview-message")) ->
  getProp parsed "payload" = inr (Some payload) ->
  truthy (Some payload) = true ->
  messageHandler this = Some handler ->
  In (callMessageHandler payload) (trace (onMessage data this)).
Proof.
  intros Hp Ht Hpl Htr Hh.
  cbv [onMessage try_catch bind lift throw ret get emit await_call render trace].
  rewrite Hp. cbv beta iota zeta. rewrite Ht. cbv beta iota zeta.
  change (strictEqString (Some (JString "webview-message")) "webview-message") with true.
  cbv beta iota zeta. rewrite Hpl. cbv beta iota zeta. rewrite Htr.
  cbv beta iota zeta. rewrite Hh. cbv beta iota zeta.
  destruct (handler payload) as [[text|typeError]|];
    cbv beta iota zeta; cbn [fst snd app]; now left.
Qed.

(** A rejection without a text: the [catch] block throws in its turn,
    before it writes anything. *)
Lemma onMessage_unprintable_rejection (data : string) (this : WebServer)
    (parsed payload : JSON) (handler : WebServerMessageHandler) (typeError : exn) :
  JSON_parse data = inr parsed ->
  getProp parsed "type" = inr (Some (JString "webview-message")) ->
  getProp parsed "payload" = inr (Some payload) ->
  truthy (Some payload) = true ->
  messageHandler this = Some handler ->
  handler payload = Some (unprintable typeError) ->
  onMessage data this = (this, [callMessageHandler payload], inl (thrown typeError)).
Proof.
  intros Hp Ht Hpl Htr Hh He.
  cbv [onMessage try_catch bind lift throw ret get emit await_call render].
  rewrite Hp. cbv beta iota zeta. rewrite Ht. cbv beta iota zeta.
  change (strictEqString (Some (JString "webview-message")) "webview-message") with true.
  cbv beta iota zeta. rewrite Hpl. cbv beta iota zeta. rewrite Htr.
  cbv beta iota zeta. rewrite Hh. cbv beta iota zeta. rewrite He. reflexivity.
Qed.

(** With handlers whose rejections have a text, delivery runs every
    frame, each as if it were alone. *)
Lemma deliver_cons (data : string) (rest : list string) (this : WebServer) :
  printableRejections this ->
  deliver (data :: rest) this =
  (final (deliver rest this),
   (trace (onMessage data this) ++ trace (deliver rest this))%list,
   outcome (deliver rest this)).
Proof.
  intros Hprint. cbn [deliver]. unfold bind at 1. rewrite onMessage_eta by exact Hprint.
  destruct (deliver rest this) as [[s t] r]. reflexivity.
Qed.

Lemma deliver_settles (frames : list string) (this : WebServer) :
  printableRejections this ->
  final (deliver frames this) = this /\ outcome (deliver frames this) = inr tt.
Proof.
  intros Hprint. induction frames as [|data rest IH].
  - split; reflexivity.
  - rewrite deliver_cons by exact Hprint. exact IH.
Qed.

Lemma deliver_trace_app (before after : list string) (this : WebServer) :
  printableRejections this ->
  trace (deliver (before ++ after)%list this)
  = (trace (deliver before this) ++ trace (deliver after this))%list.
Proof.
  intros Hprint. induction before as [|data rest IH].
  - reflexivity.
  - change ((data :: rest) ++ after)%list with (data :: (rest ++ after))%list.
    rewrite !deliver_cons by exact Hprint. unfold trace at 1 4. cbn [fst snd].
    rewrite IH, app_assoc. reflexivity.
Qed.

End Frames.

End Dispatch.

Module RelayClaims.

Import Http Relay Props Facts Dispatch.

Section Frames.

Context `{JSONModule}.

(** C2, as amended. For a frame that parses to a value whose [type] is
    [webview-message], with a message handler registered: when the value of
    [payload] is truthy the handler is called exactly once, with that
    payload; when [payload] is absent or falsy (null, false, zero, NaN, the
    empty string) the handler is not called. With no handler registered, or
    with any other [type], the message handler is not called. *)
Theorem webview_message_dispatch_on_truthy_payload
    (this : WebServer) (data : string) (parsed : JSON) (type : option JSON) :
  JSON_parse data = inr parsed ->
  getProp parsed "type" = inr type ->
  let calls := messageCalls (trace (onMessage data this)) in
  (strictEqString type "webview-message" = true ->
   (forall handler payload,
       messageHandler this = Some handler ->
       getProp parsed "payload" = inr (Some payload) ->
       truthy (Some payload) = true ->
       calls = [payload])
   /\ (forall payload,
          getProp parsed "payload" = inr payload ->
          truthy payload = false ->
          calls = [])
   /\ (messageHandler this = None -> calls = []))
  /\ (strictEqString type "webview-message" = false -> calls = []).
Proof.
  intros Hp Ht calls. subst calls.
  rewrite (onMessage_messageCalls data this parsed Hp).
  unfold field. rewrite Ht. split.
  - intros Hty. rewrite Hty. cbn [andb]. split; [|split].
    + intros handler payload Hh Hpl Htr. rewrite Hpl, Htr, Hh. reflexivity.
    + intros payload Hpl Hfalsy. rewrite Hpl, Hfalsy. reflexivity.
    + intros Hnone. rewrite Hnone.
      destruct (truthy _); reflexivity.
  - intros Hty. rewrite Hty. reflexivity.
Qed.

(** C10. Whatever the frame and whatever is registered, one frame causes at
    most one handler call: never a call of the message handler and a call
    of the toolbar handler. *)
Theorem at_most_one_handler_call_per_frame (this : WebServer) (data : string) :
  let t := trace (onMessage data this) in
  (messageCalls t = [] \/ toolbarCalls t = [])
  /\ List.length (messageCalls t) + List.length (toolbarCalls t) <= 1
  /\ ~ (exists payload action,
           In (callMessageHandler payload) t /\ In (callToolbarActionHandler action) t).
Proof.
  intros t. subst t.
  destruct (onMessage_at_most_one_call data this) as [Hone Hlen].
  split; [exact Hone|]. split; [exact Hlen|].
  intros [payload [action [Hm Ht]]].
  assert (HinM : forall t, In (callMessageHandler payload) t -> messageCalls t <> []).
  { induction t as [|ev t IH]; simpl; [tauto|].
    intros [-> | Hin]; [discriminate|]. destruct ev; auto; discriminate. }
  assert (HinT : forall t, In (callToolbarActionHandler action) t -> toolbarCalls t <> []).
  { induction t as [|ev t IH]; simpl; [tauto|].
    intros [-> | Hin]; [discriminate|]. destruct ev; auto; discriminate. }
  destruct Hone as [Hnil | Hnil].
  - exact (HinM _ Hm Hnil).
  - exact (HinT _ Ht Hnil).
Qed.

(** C7. The [catch] of the message listener does not contain every
    failure. When the registered handler throws or rejects with a value
    that has no text (a Symbol, an object without [toString]), rendering it
    in the [catch] block throws a [TypeError] that nothing catches: the
    promise of the listener is rejected with it, and no line is written for
    the frame. The object, the registry with it, is as before. *)
Theorem unprintable_rejection_escapes_the_listener
    (this : WebServer) (data : string) (parsed payload : JSON)
    (handler : WebServerMessageHandler) (typeError : exn) :
  JSON_parse data = inr parsed ->
  getProp parsed "type" = inr (Some (JString "webview-message")) ->
  getProp parsed "payload" = inr (Some payload) ->
  truthy (Some payload) = true ->
  messageHandler this = Some handler ->
  handler payload = Some (unprintable typeError) ->
  outcome (onMessage data this) = inl (thrown typeError)
  /\ trace (onMessage data this) = [callMessageHandler payload]
  /\ (forall err, ~ In (frameError err) (trace (onMessage data this)))
  /\ final (onMessage data this) = this
  /\ clients (final (onMessage data this)) = clients this.
Proof.
  intros Hp Ht Hpl Htr Hh He.
  rewrite (onMessage_unprintable_rejection data this parsed payload handler typeError
             Hp Ht Hpl Htr Hh He).
  cbv [outcome trace final]. cbn [fst snd].
  repeat split. intros err [Hin | []]. discriminate Hin.
Qed.

(** X22. With handlers that throw or reject only with values that have a
    text, the message listener lets no failure out: for every frame its
    promise is fulfilled and the object, the registry with it, is as
    before; a frame that does not parse leaves one log line, a handler that
    throws or rejects is followed by one log line; and on a connection every
    frame is handed to the listener, so a frame that carries a payload for
    the registered handler is dispatched whatever came before it. *)
Theorem frame_failures_stay_in_the_listener (this : WebServer) :
  printableRejections this ->
  (forall data,
      final (onMessage data this) = this
      /\ clients (final (onMessage data this)) = clients this
      /\ outcome (onMessage data this) = inr tt)
  /\ (forall data err,
         JSON_parse data = inl err ->
         trace (onMessage data this) = [frameError err])
  /\ (forall data parsed payload handler err,
         JSON_parse data = inr parsed ->
         getProp parsed "type" = inr (Some (JString "webview-message")) ->
         getProp parsed "payload" = inr (Some payload) ->
         truthy (Some payload) = true ->
         messageHandler this = Some handler ->
         handler payload = Some (thrown err) ->
         trace (onMessage data this) = [callMessageHandler payload; frameError err])
  /\ (forall data parsed action handler err,
         JSON_parse data = inr parsed ->
         getProp parsed "type" = inr (Some (JString "toolbar-action")) ->
         getProp parsed "action" = inr (Some action) ->
         truthy (Some action) = true ->
         toolbarActionHandler this = Some handler ->
         handler action = Some (thrown err) ->
         trace (onMessage data this) = [callToolbarActionHandler action; frameError err])
  /\ (forall frames,
         final (deliver frames this) = this
         /\ outcome (deliver frames this) = inr tt)
  /\ (forall before data after,
         trace (deliver (before ++ data :: after)%list this)
         = (trace (deliver before this) ++ trace (onMessage data this)
            ++ trace (deliver after this))%list)
  /\ (forall before data parsed payload handler,
         JSON_parse data = inr parsed ->
         getProp parsed "type" = inr (Some (JString "webview-message")) ->
         getProp parsed "payload" = inr (Some payload) ->
         truthy (Some payload) = true ->
         messageHandler this = Some handler ->
         In (callMessageHandler payload) (trace (deliver (before ++ [data])%list this))).
Proof.
  intros Hprint. split.
  { intros data. destruct (onMessage_settles data this Hprint) as [Hf Ho].
    rewrite Hf. auto. }
  split; [intros data err; apply onMessage_parse_failure|].
  split; [intros data parsed payload handler err; apply onMessage_handler_rejects|].
  split; [intros data parsed action handler err; apply onMessage_toolbar_rejects|].
  split; [intros frames; now apply deliver_settles|].
  assert (Happ : forall before data after,
             trace (deliver (before ++ data :: after)%list this)
             = (trace (deliver before this) ++ trace (onMessage data this)
                ++ trace (deliver after this))%list).
  { intros before data after.
    rewrite deliver_trace_app, deliver_cons by exact Hprint. reflexivity. }
  split; [exact Happ|].
  intros before data parsed payload handler Hp Ht Hpl Htr Hh.
  rewrite Happ. apply in_or_app. right. apply in_or_app. left.
  now apply (onMessage_handler_fulfils data this parsed payload handler).
Qed.

(** The loop of [broadcastToClients]: one write per open connection. *)
Lemma broadcast_loop (data : string) (cs : list WebSocket) (this : WebServer) :
  for_of cs (fun client =>
               if ReadyState_eqb (readyState client) OPEN
               then emit (send (ws_id client) data)
               else ret tt) this
  = (this, map (fun c => send (ws_id c) data) (filter isOpen cs), inr tt).
Proof.
  induction cs as [|c cs IH]; cbn [for_of filter map].
  - reflexivity.
  - unfold isOpen at 1.
    destruct (ReadyState_eqb (readyState c) OPEN).
    + rewrite bind_emit, IH. reflexivity.
    + rewrite bind_ret, IH. reflexivity.
Qed.

Lemma broadcastToClients_run (message : JSON) (this : WebServer) :
  broadcastToClients message this =
  match clients this with
  | [] => (this, [], inr tt)
  | _ :: _ =>
      match JSON_stringify (envelope message) with
      | inr data =>
          (this,
           stringify (envelope message)
           :: map (fun c => send (ws_id c) data) (filter isOpen (clients this)),
           inr tt)
      | inl err => (this, [stringify (envelope message)], inl (thrown err))
      end
  end.
Proof.
  unfold broadcastToClients. fold (envelope message).
  unfold bind at 1. cbv [get].
  destruct (clients this) as [|c cs] eqn:Hcs; [reflexivity|].
  cbn [List.length Nat.eqb]. rewrite bind_emit.
  destruct (JSON_stringify (envelope message)) as [err|data]; cbv [lift].
  - reflexivity.
  - rewrite bind_ret, broadcast_loop. reflexivity.
Qed.

Lemma writes_sends (data : string) (cs : list WebSocket) :
  writes (map (fun c => send (ws_id c) data) cs) = map (fun c => (ws_id c, data)) cs.
Proof. induction cs as [|c cs IH]; simpl; [reflexivity | now rewrite IH]. Qed.

Lemma serializations_sends (data : string) (cs : list WebSocket) :
  serializations (map (fun c => send (ws_id c) data) cs) = [].
Proof. induction cs as [|c cs IH]; simpl; [reflexivity | exact IH]. Qed.

(** C5. [broadcastToClients] does nothing at all on an empty registry:
    no serialization, no write, no error. Otherwise it serializes the
    envelope [{type: extension-message, payload: message}] once and writes
    that one text to each connection whose state is open, in registry
    order, and to no other. *)
Theorem broadcast_writes_one_text_to_open_connections
    (message : JSON) (this : WebServer) :
  let result := broadcastToClients message this in
  (clients this = [] -> result = (this, [], inr tt))
  /\ (forall data,
         clients this <> [] ->
         JSON_stringify (envelope message) = inr data ->
         outcome result = inr tt
         /\ serializations (trace result) = [envelope message]
         /\ writes (trace result)
            = map (fun c => (ws_id c, data)) (filter isOpen (clients this))
         /\ (forall c d, In (c, d) (writes (trace result)) <->
                         d = data
                         /\ exists client, In client (clients this)
                                           /\ readyState client = OPEN
                                           /\ ws_id client = c))
  /\ List.length (serializations (trace result)) <= 1.
Proof.
  intros result. subst result. rewrite broadcastToClients_run.
  split; [intros ->; reflexivity|].
  split.
  - intros data Hne Hdata. destruct (clients this) as [|c0 cs] eqn:Hcs; [congruence|].
    rewrite Hdata. cbv [outcome trace]. cbn [fst snd].
    cbn [serializations writes]. rewrite serializations_sends, writes_sends.
    split; [reflexivity|]. split; [reflexivity|]. split; [reflexivity|].
    intros c d. rewrite in_map_iff. split.
    + intros [client [Heq Hin]]. injection Heq as <- <-.
      apply filter_In in Hin as [Hin Hopen]. split; [reflexivity|].
      exists client. repeat split; [exact Hin|].
      unfold isOpen in Hopen. destruct (readyState client); now try discriminate.
    + intros [-> [client [Hin [Hopen <-]]]]. exists client. split; [reflexivity|].
      apply filter_In. split; [exact Hin|]. unfold isOpen. now rewrite Hopen.
  - destruct (clients this) as [|c0 cs]; [simpl; lia|].
    destruct (JSON_stringify (envelope message)); cbv [trace]; cbn [fst snd serializations].
    + simpl. lia.
    + rewrite serializations_sends. simpl. lia.
Qed.

(** C9. [broadcastToClients] leaves the object as it found it: the
    registry after the call is the registry before it, connections that are
    not open included; it is the [close] and [error] listeners that take a
    connection out. *)
Theorem broadcast_leaves_the_registry (message : JSON) (this : WebServer) :
  final (broadcastToClients message this) = this
  /\ clients (final (broadcastToClients message this)) = clients this
  /\ (forall client,
         In client (clients this) ->
         readyState client <> OPEN ->
         In client (clients (final (broadcastToClients message this))))
  /\ (forall ws, clients (final (onClose ws this)) = Set_delete ws (clients this))
  /\ (forall ws err, clients (final (onError ws err this)) = Set_delete ws (clients this))
  /\ (forall ws client,
         In client (Set_delete ws (clients this)) -> ws_id client <> ws_id ws).
Proof.
  assert (Hfinal : final (broadcastToClients message this) = this).
  { rewrite broadcastToClients_run. destruct (clients this); [reflexivity|].
    destruct (JSON_stringify (envelope message)); reflexivity. }
  rewrite Hfinal. split; [reflexivity|]. split; [reflexivity|].
  split; [intros client Hin _; exact Hin|].
  split; [reflexivity|]. split; [reflexivity|].
  intros ws client Hin. unfold Set_delete in Hin. apply filter_In in Hin as [_ Hne].
  intros Heq. rewrite Heq, Nat.eqb_refl in Hne. discriminate.
Qed.

End Frames.

(** C8, as amended. [configure] keeps any port that is greater than zero,
    integer or not, and puts the default, 30000, in the place of any other
    (zero, a negative number, NaN); a positive integer is therefore kept.
    [getPort] then answers the stored value, before [start] and after it,
    whether the port could be bound or not, and [start] asks to listen on
    that value. *)
Theorem configure_keeps_any_positive_port
    (p : number) (pw : option JSString) (bound : exn + unit) (this : WebServer) :
  let stored := if gt_zero p then p else DEFAULT_WEB_SERVER_PORT in
  let configured := final (configure p pw this) in
  let started := final (start bound configured) in
  port configured = stored
  /\ DEFAULT_WEB_SERVER_PORT = number_of_Z 30000
  /\ (isPositiveInteger p = true -> stored = p)
  /\ outcome (getPort configured) = inr stored
  /\ port started = stored
  /\ outcome (getPort started) = inr stored
  /\ (outcome (isRunning configured) = inr false ->
      In (listen stored "0.0.0.0") (trace (start bound configured))).
Proof.
  cbv zeta. split; [reflexivity|]. split; [reflexivity|].
  split.
  { unfold isPositiveInteger. intros Hpos. apply andb_true_iff in Hpos as [Hgt _].
    now rewrite Hgt. }
  split; [reflexivity|].
  assert (Hport : port (final (start bound (final (configure p pw this))))
                  = if gt_zero p then p else DEFAULT_WEB_SERVER_PORT).
  { cbv [start isRunning configure bind get ret modify emit throw final].
    cbn [fst snd httpServer set_port set_password].
    destruct (httpServer this) as [[[|]]|]; cbn; destruct bound; reflexivity. }
  split; [exact Hport|]. split.
  { cbv [getPort bind get ret outcome]. cbn [fst snd]. now rewrite Hport. }
  cbv [start isRunning configure bind get ret modify emit throw final outcome trace].
  cbn [fst snd httpServer set_port set_password].
  destruct (httpServer this) as [[[|]]|]; cbn; try discriminate;
    intros _; destruct bound; cbn; auto.
Qed.

End RelayClaims.

(** ** Counterexamples and instances *)

Module Checks.

Import Http Relay Props Examples.

(** C2, as stated, fails: the frame [{"type":"webview-message","payload":0}]
    has a [payload] field, a handler is registered, and the handler is not
    called, because the guard tests the value of [payload], and zero is
    falsy. *)
Lemma dispatch_on_payload_presence_fails : ~ dispatch_on_payload_presence.
Proof.
  intros Hclaim.
  specialize (Hclaim json_table server frame_zero_payload parsed_zero_payload
                (JNumber (S754_zero false)) (fun _ => None)
                eq_refl eq_refl eq_refl eq_refl).
  vm_compute in Hclaim. discriminate Hclaim.
Qed.

(** C2, as amended, on the frames of the spec: the payload [{"x":1}] is
    truthy and reaches the handler once; the payload [0] does not. *)
Lemma webview_message_dispatch_witness :
  messageCalls (trace (@onMessage json_table frame_webview server)) = [payload_x1]
  /\ messageCalls (trace (@onMessage json_table frame_zero_payload server)) = [].
Proof.
  split.
  - destruct (@RelayClaims.webview_message_dispatch_on_truthy_payload
                json_table server frame_webview parsed_webview
                (Some (JString "webview-message")) eq_refl eq_refl) as [Hyes _].
    destruct (Hyes eq_refl) as [Hcall _].
    exact (Hcall (fun _ => None) payload_x1 eq_refl eq_refl eq_refl).
  - destruct (@RelayClaims.webview_message_dispatch_on_truthy_payload
                json_table server frame_zero_payload parsed_zero_payload
                (Some (JString "webview-message")) eq_refl eq_refl) as [Hyes _].
    destruct (Hyes eq_refl) as [_ [Hfalsy _]].
    exact (Hfalsy (Some (JNumber (S754_zero false))) eq_refl eq_refl).
Defined.

(** C8, as stated, fails: [configure(1.5, ...)] stores 1.5, which is not an
    integer, and not the default. *)
Lemma configure_keeps_only_positive_integers_fails :
  ~ configure_keeps_only_positive_integers.
Proof.
  intros Hclaim.
  specialize (Hclaim (number_of_dyadic 3 (-1)) None new_WebServer).
  vm_compute in Hclaim. discriminate Hclaim.
Qed.

(** C4 on the spec's example: [/nonexistent-route], with the right
    credentials, is answered with the bootstrap page, not with a 404. *)
Lemma spa_fallback_never_404_witness :
  statusCode
    (fst (@handleRequest NodeBuffer.node_buffer Posix.posix disk skeleton server
            (get "/nonexistent-route" auth_secret) new_ServerResponse
            buildDir assetsDir audioDir)) <> 404
  /\ @handleRequest NodeBuffer.node_buffer Posix.posix disk skeleton server
       (get "/nonexistent-route" auth_secret) new_ServerResponse
       buildDir assetsDir audioDir
     = (@bootstrapPage Posix.posix disk skeleton (cors new_ServerResponse) buildDir, []).
Proof.
  destruct (@Resolver.spa_fallback_never_404
              NodeBuffer.node_buffer Posix.posix disk skeleton server
              (get "/nonexistent-route" auth_secret) new_ServerResponse
              buildDir assetsDir audioDir eq_refl eq_refl eq_refl eq_refl)
    as [Hnot404 [Hroute _]].
  split; [exact Hnot404 | exact (Hroute (or_intror eq_refl))].
Defined.

(** C7 at a handler that rejects with a Symbol: the frame
    [{"type":"webview-message","payload":{"x":1}}] reaches the handler, the
    listener's promise is rejected, and no line is written. *)
Lemma unprintable_rejection_witness :
  outcome (@onMessage json_table frame_webview server_symbol)
  = inl (thrown "TypeError: Cannot convert a Symbol value to a string")
  /\ trace (@onMessage json_table frame_webview server_symbol)
     = [callMessageHandler payload_x1].
Proof.
  destruct (@RelayClaims.unprintable_rejection_escapes_the_listener json_table
              server_symbol frame_webview parsed_webview payload_x1
              (fun _ => Some (unprintable
                                "TypeError: Cannot convert a Symbol value to a string"))
              "TypeError: Cannot convert a Symbol value to a string"
              eq_refl eq_refl eq_refl eq_refl eq_refl eq_refl)
    as [Hout [Htrace _]].
  split; [exact Hout | exact Htrace].
Defined.

(** The handlers of the example server reject with errors that have a
    text. *)
Lemma server_failing_printable : printableRejections server_failing.
Proof.
  split; intros handler value err Hh He; injection Hh as <-;
    injection He as <-; eexists; reflexivity.
Defined.

(** X22 on the example server whose message handler rejects: after a
    malformed frame and a rejected one, the next frame still reaches the
    handler. *)
Lemma frame_failures_witness :
  outcome (@deliver json_table [frame_malformed; frame_webview; frame_webview]
             server_failing) = inr tt
  /\ In (callMessageHandler payload_x1)
       (trace (@deliver json_table ([frame_malformed; frame_webview] ++ [frame_webview])
                 server_failing)).
Proof.
  destruct (@RelayClaims.frame_failures_stay_in_the_listener json_table server_failing
              server_failing_printable)
    as [_ [_ [_ [_ [Hdeliver [_ Hnext]]]]]].
  split.
  - exact (proj2 (Hdeliver [frame_malformed; frame_webview; frame_webview])).
  - exact (Hnext [frame_malformed; frame_webview] frame_webview parsed_webview payload_x1
             (fun _ => Some (thrown "Error: handler failed"))
             eq_refl eq_refl eq_refl eq_refl eq_refl).
Defined.

End Checks.

(** ** The testable properties of the spec, on the example world *)

Module SpecExamples.

Import Http Relay Props Examples.

Example base64_anyuser_secret :
  NodeBuffer.decode "YW55dXNlcjpzZWNyZXQ=" = units "anyuser:secret".
Proof. vm_compute. reflexivity. Qed.

Example right_password_is_200 : status server (get "/" auth_secret) = 200.
Proof. vm_compute. reflexivity. Qed.

Example wrong_password_is_401 :
  status server (get "/" auth_wrong) = 401
  /\ getHeader (fst (request server (get "/" auth_wrong))) "WWW-Authenticate"
     = Some ("Basic realm=" ++ dquote ++ "Roo Code" ++ dquote).
Proof. split; vm_compute; reflexivity. Qed.

Example no_header_is_401 : status server (get "/" None) = 401.
Proof. vm_compute. reflexivity. Qed.

Example no_password_no_header_is_200 :
  status open_server (get "/ext-assets/codicons/codicon.css" None) = 200.
Proof. vm_compute. reflexivity. Qed.

Example preflight_needs_no_credentials :
  status server {| url := Some "/"; method := Some "OPTIONS"; authorization := None |} = 204.
Proof. vm_compute. reflexivity. Qed.

Example nonexistent_route_is_the_bootstrap_page :
  status server (get "/nonexistent-route" auth_secret) = 200
  /\ getHeader (fst (request server (get "/nonexistent-route" auth_secret))) "Content-Type"
     = Some "text/html".
Proof. split; vm_compute; reflexivity. Qed.

Example missing_asset_is_404 :
  status server (get "/ext-assets/does-not-exist.png" auth_secret) = 404.
Proof. vm_compute. reflexivity. Qed.

Example unreadable_asset_is_500 :
  status server (get "/ext-assets/codicons" auth_secret) = 500.
Proof. vm_compute. reflexivity. Qed.

Example broadcast_to_nobody :
  @broadcastToClients json_table message_foo new_WebServer = (new_WebServer, [], inr tt).
Proof. vm_compute. reflexivity. Qed.

Example broadcast_skips_the_closed_connection :
  writes (trace (@broadcastToClients json_table message_foo server))
  = [(1, envelope_foo_text); (3, envelope_foo_text)].
Proof. vm_compute. reflexivity. Qed.

Example webview_frame_calls_the_handler_once :
  trace (@onMessage json_table frame_webview server) = [callMessageHandler payload_x1].
Proof. vm_compute. reflexivity. Qed.

Example unknown_frame_calls_nothing :
  trace (@onMessage json_table frame_unknown server) = [].
Proof. vm_compute. reflexivity. Qed.

Example malformed_frame_is_logged :
  exists line,
    @onMessage json_table frame_malformed server = (server, [appendLine line], inr tt).
Proof. eexists. vm_compute. reflexivity. Qed.

Example frames_after_a_failing_handler :
  messageCalls (trace (@deliver json_table [frame_webview; frame_malformed; frame_webview]
                                server_failing))
  = [payload_x1; payload_x1].
Proof. vm_compute. reflexivity. Qed.

Example connection_lifecycle :
  let ws := {| ws_id := 7; readyState := OPEN |} in
  clients (final (onConnection ws new_WebServer)) = [ws]
  /\ clients (final (onClose ws (final (onConnection ws new_WebServer)))) = []
  /\ clients (final (onError ws "ECONNRESET" (final (onConnection ws new_WebServer)))) = [].
Proof. repeat split. Qed.

End SpecExamples.

(** * More of the bridge server *)

(** ** Start and stop *)

Module LifecycleFacts.

Import Http Relay Props Lifecycle MoreProps Facts Dispatch.

Lemma isRunning_running (this : WebServer) :
  isRunning this = (this, [], inr (running this)).
Proof. reflexivity. Qed.

Lemma start_when_running (bound : exn + unit) (this : WebServer) :
  running this = true ->
  start bound this = (this, [appendLine [Text "[WebServer] Already running."]], inr tt).
Proof.
  intros Hrun. unfold start. unfold bind at 1. rewrite isRunning_running.
  cbv beta iota zeta. rewrite Hrun. reflexivity.
Qed.

Lemma start_when_stopped (bound : exn + unit) (this : WebServer) :
  running this = false ->
  start bound this =
  match bound with
  | inr _ =>
      (set_servers (Some {| listening := true |}) (Some tt) this,
       [listen (port this) "0.0.0.0";
        appendLine [Text "[WebServer] Roo Code web server started on http://0.0.0.0:";
                    Num (port this)]],
       inr tt)
  | inl err =>
      (set_servers (Some {| listening := false |}) (Some tt) this,
       [listen (port this) "0.0.0.0"],
       inl (thrown err))
  end.
Proof.
  intros Hrun. unfold start. unfold bind at 1. rewrite isRunning_running.
  cbv beta iota zeta. rewrite Hrun. destruct bound as [err|[]]; reflexivity.
Qed.

(** X1. [start] is idempotent: once a start has bound the port the server
    is running, and a further [start], whatever the port would answer, binds
    nothing, changes nothing and only writes that the server is already
    running. *)
Theorem start_twice_binds_once (again : exn + unit) (this : WebServer) :
  let started := final (start (inr tt) this) in
  running started = true
  /\ start again started
     = (started, [appendLine [Text "[WebServer] Already running."]], inr tt)
  /\ listens (trace (start again started)) = []
  /\ List.length (listens (trace (start (inr tt) this))) <= 1.
Proof.
  cbv zeta.
  assert (Hrun : running (final (start (inr tt) this)) = true).
  { destruct (running this) eqn:Hr.
    - now rewrite start_when_running.
    - now rewrite start_when_stopped. }
  split; [exact Hrun|].
  rewrite (start_when_running again _ Hrun).
  split; [reflexivity|]. split; [reflexivity|].
  destruct (running this) eqn:Hr.
  - rewrite start_when_running by exact Hr. simpl. lia.
  - rewrite start_when_stopped by exact Hr. simpl. lia.
Qed.

(** X2. A [start] whose call of [listen] throws (a port out of range, or
    not an integer) is rejected with what was thrown, after that one call
    and without a line in the output: the [error] listener that would write
    it is subscribed after [listen] is called. The server is not running
    afterwards, its registry, handlers, port and password are untouched,
    and a later [start] calls [listen] again. *)
Theorem refused_port_rejects_start_without_a_line
    (err : exn) (retry : exn + unit) (this : WebServer) :
  running this = false ->
  let failed := start (inl err) this in
  outcome failed = inl (thrown err)
  /\ trace failed = [listen (port this) "0.0.0.0"]
  /\ running (final failed) = false
  /\ clients (final failed) = clients this
  /\ messageHandler (final failed) = messageHandler this
  /\ toolbarActionHandler (final failed) = toolbarActionHandler this
  /\ port (final failed) = port this
  /\ password (final failed) = password this
  /\ listens (trace (start retry (final failed))) = [port this].
Proof.
  intros Hrun. cbv zeta. rewrite (start_when_stopped (inl err) this Hrun).
  repeat (split; [reflexivity|]).
  rewrite start_when_stopped by reflexivity.
  destruct retry as [e|[]]; reflexivity.
Qed.

Lemma refused_port_witness :
  outcome (start (inl "RangeError [ERR_SOCKET_BAD_PORT]") new_WebServer)
  = inl (thrown "RangeError [ERR_SOCKET_BAD_PORT]")
  /\ trace (start (inl "RangeError [ERR_SOCKET_BAD_PORT]") new_WebServer)
     = [listen (port new_WebServer) "0.0.0.0"].
Proof.
  destruct (refused_port_rejects_start_without_a_line
              "RangeError [ERR_SOCKET_BAD_PORT]" (inr tt) new_WebServer eq_refl)
    as [Hout [Htrace _]].
  split; [exact Hout | exact Htrace].
Defined.

Lemma terminations_app (a b : list Teardown) :
  terminations (a ++ b)%list = (terminations a ++ terminations b)%list.
Proof.
  induction a as [|ev a IH]; simpl; [reflexivity|].
  destruct ev; simpl; now rewrite IH.
Qed.

Lemma terminations_terminated (cs : list WebSocket) :
  terminations (map (fun client => terminate (ws_id client)) cs) = map ws_id cs.
Proof. induction cs as [|c cs IH]; simpl; [reflexivity | now rewrite IH]. Qed.

Lemma outputs_app (a b : list Teardown) :
  outputs (a ++ b)%list = (outputs a ++ outputs b)%list.
Proof.
  induction a as [|ev a IH]; simpl; [reflexivity|].
  destruct ev; simpl; now rewrite IH.
Qed.

Lemma outputs_terminated (cs : list WebSocket) :
  outputs (map (fun client => terminate (ws_id client)) cs) = [].
Proof. induction cs as [|c cs IH]; simpl; [reflexivity | exact IH]. Qed.

Lemma stop_when_running (closed : option exn) (this : WebServer) :
  running this = true ->
  wss this <> None ->
  stop closed this =
  match closed with
  | Some err =>
      (set_servers (Some {| listening := false |}) None (set_clients [] this),
       (map (fun client => terminate (ws_id client)) (clients this)
        ++ [wssClose; httpClose])%list,
       inl err)
  | None =>
      (set_servers None None (set_clients [] this),
       (map (fun client => terminate (ws_id client)) (clients this)
        ++ [wssClose; httpClose; output [Text "[WebServer] Server stopped."]])%list,
       inr fulfilled)
  end.
Proof.
  intros Hrun Hwss. unfold stop. rewrite Hrun. cbn [negb].
  cbn [wss set_clients httpServer set_servers].
  destruct (wss this) as [w|]; [|congruence].
  unfold running in Hrun.
  destruct (httpServer this) as [server|]; [|discriminate].
  destruct closed; reflexivity.
Qed.

Section Shutdown.

Context `{JSONModule}.

(** X3. [stop] on a running server terminates every registered
    connection, each once and in registry order, empties the registry and
    drops the socket server; the server is not running afterwards. On a
    clean close the promise is fulfilled, the HTTP server is dropped and
    one line is written; when the close reports an error the promise is
    rejected with it and no line is written. Either way a second [stop]
    does nothing, and a broadcast writes to nobody. *)
Theorem stop_tears_the_server_down
    (closed again : option exn) (message : JSON) (this : WebServer) :
  running this = true ->
  wss this <> None ->
  let stopped := stop closed this in
  terminations (teardown stopped) = map ws_id (clients this)
  /\ clients (stopState stopped) = []
  /\ wss (stopState stopped) = None
  /\ running (stopState stopped) = false
  /\ settled stopped
     = match closed with Some err => inl err | None => inr fulfilled end
  /\ outputs (teardown stopped)
     = match closed with
       | Some _ => []
       | None => [[Text "[WebServer] Server stopped."]]
       end
  /\ (closed = None -> httpServer (stopState stopped) = None)
  /\ port (stopState stopped) = port this
  /\ password (stopState stopped) = password this
  /\ stop again (stopState stopped) = (stopState stopped, [], inr fulfilled)
  /\ broadcastToClients message (stopState stopped) = (stopState stopped, [], inr tt).
Proof.
  intros Hrun Hwss. cbv zeta.
  rewrite (stop_when_running closed this Hrun Hwss).
  assert (Hbroadcast : forall s, clients s = [] ->
                                 broadcastToClients message s = (s, [], inr tt)).
  { intros s Hs. unfold broadcastToClients. unfold bind at 1. cbv [get].
    rewrite Hs. reflexivity. }
  destruct closed as [err|]; cbv [stopState teardown settled]; cbn [fst snd];
    rewrite ?terminations_app, ?outputs_app, ?terminations_terminated,
      ?outputs_terminated;
    cbn [terminations outputs app]; rewrite ?app_nil_r;
    repeat (split; [first [reflexivity | discriminate | intros _; reflexivity]|]);
    apply Hbroadcast; reflexivity.
Qed.

End Shutdown.

Lemma stop_witness :
  terminations (teardown (stop None Examples.server)) = [1; 2; 3]
  /\ running (stopState (stop None Examples.server)) = false.
Proof.
  destruct (@stop_tears_the_server_down Examples.json_table None None Examples.message_foo Examples.server
              eq_refl (fun Hnone => match Hnone with eq_refl => I end))
    as [Hterm [_ [_ [Hrun _]]]].
  split; [exact Hterm | exact Hrun].
Defined.

End LifecycleFacts.

(** ** The connection registry *)

Module RegistryFacts.

Import Http Relay Props Lifecycle MoreProps Facts Dispatch LifecycleFacts.

Lemma Set_delete_absent (ws : WebSocket) (cs : list WebSocket) :
  (forall client, In client cs -> ws_id client <> ws_id ws) ->
  Set_delete ws cs = cs.
Proof.
  induction cs as [|c cs IH]; intros Habs; simpl; [reflexivity|].
  destruct (Nat.eqb_spec (ws_id c) (ws_id ws)) as [Heq|_]; simpl.
  - exfalso. apply (Habs c); [now left | exact Heq].
  - f_equal. apply IH. intros client Hin. apply Habs. now right.
Qed.

Lemma Set_delete_gone (ws : WebSocket) (cs : list WebSocket) (client : WebSocket) :
  In client (Set_delete ws cs) -> ws_id client <> ws_id ws.
Proof.
  unfold Set_delete. intros Hin. apply filter_In in Hin as [_ Hne].
  intros Heq. rewrite Heq, Nat.eqb_refl in Hne. discriminate.
Qed.

Lemma Set_delete_idempotent (ws : WebSocket) (cs : list WebSocket) :
  Set_delete ws (Set_delete ws cs) = Set_delete ws cs.
Proof. apply Set_delete_absent. intros client. apply Set_delete_gone. Qed.

Lemma Set_delete_add (ws : WebSocket) (cs : list WebSocket) :
  (forall client, In client cs -> ws_id client <> ws_id ws) ->
  Set_delete ws (Set_add ws cs) = cs.
Proof.
  intros Habs. unfold Set_add.
  assert (Hno : existsb (fun c => Nat.eqb (ws_id c) (ws_id ws)) cs = false).
  { destruct (existsb _ cs) eqn:Hex; [|reflexivity].
    apply existsb_exists in Hex as [c [Hin Heq]]. apply Nat.eqb_eq in Heq.
    exfalso. exact (Habs c Hin Heq). }
  rewrite Hno. unfold Set_delete. rewrite filter_app. simpl.
  rewrite Nat.eqb_refl. simpl. rewrite app_nil_r.
  now apply Set_delete_absent.
Qed.

Lemma Set_add_registered (ws : WebSocket) (cs : list WebSocket) :
  Set_add ws (Set_add ws cs) = Set_add ws cs.
Proof.
  unfold Set_add. destruct (existsb _ cs) eqn:Hex.
  - now rewrite Hex.
  - rewrite existsb_app. simpl. rewrite Nat.eqb_refl. simpl.
    now rewrite orb_true_r.
Qed.

Lemma Set_add_NoDup (ws : WebSocket) (cs : list WebSocket) :
  NoDup (map ws_id cs) -> NoDup (map ws_id (Set_add ws cs)).
Proof.
  intros Hnd. unfold Set_add. destruct (existsb _ cs) eqn:Hex; [exact Hnd|].
  rewrite map_app. simpl. apply NoDup_app; [exact Hnd | |].
  - constructor; [intros [] | constructor].
  - intros id Hin [Heq|[]]. subst id.
    apply in_map_iff in Hin as [c [Heq Hin]].
    assert (Htrue : existsb (fun c => Nat.eqb (ws_id c) (ws_id ws)) cs = true).
    { apply existsb_exists. exists c. split; [exact Hin | now apply Nat.eqb_eq]. }
    congruence.
Qed.

Lemma Set_delete_NoDup (ws : WebSocket) (cs : list WebSocket) :
  NoDup (map ws_id cs) -> NoDup (map ws_id (Set_delete ws cs)).
Proof.
  induction cs as [|c cs IH]; simpl; intros Hnd; [constructor|].
  inversion Hnd as [|id ids Hnotin Hrest]; subst.
  destruct (negb (Nat.eqb (ws_id c) (ws_id ws))); simpl; [|now apply IH].
  constructor; [|now apply IH].
  intros Hin. apply Hnotin. apply in_map_iff in Hin as [c' [Heq Hin]].
  apply in_map_iff. exists c'. split; [exact Heq|].
  unfold Set_delete in Hin. now apply filter_In in Hin as [Hin _].
Qed.

(** X4. Removing a connection is idempotent and harmless: the [close]
    event of a socket that is not registered leaves the registry as it is,
    a second [close] or a [close] after an [error] changes nothing more,
    and after either event no entry of the registry is that socket. *)
Theorem removing_a_connection_is_idempotent
    (ws : WebSocket) (err : exn) (this : WebServer) :
  let closed := final (onClose ws this) in
  let failed := final (onError ws err this) in
  (unregistered ws this -> clients closed = clients this)
  /\ clients (final (onClose ws closed)) = clients closed
  /\ clients (final (onClose ws failed)) = clients failed
  /\ clients failed = clients closed
  /\ unregistered ws closed
  /\ unregistered ws failed
  /\ (forall client, In client (clients closed) -> In client (clients this)).
Proof.
  cbv zeta.
  change (clients (final (onClose ws this))) with (Set_delete ws (clients this)).
  change (clients (final (onError ws err this))) with (Set_delete ws (clients this)).
  change (clients (final (onClose ws (final (onClose ws this)))))
    with (Set_delete ws (Set_delete ws (clients this))).
  change (clients (final (onClose ws (final (onError ws err this)))))
    with (Set_delete ws (Set_delete ws (clients this))).
  split; [intros Habs; now apply Set_delete_absent|].
  split; [apply Set_delete_idempotent|].
  split; [apply Set_delete_idempotent|].
  split; [reflexivity|].
  split; [intros client; apply Set_delete_gone|].
  split; [intros client; apply Set_delete_gone|].
  intros client Hin. unfold Set_delete in Hin. now apply filter_In in Hin as [Hin _].
Qed.

(** X5. A connection that opens and then closes leaves the registry as it
    was before; the [connection] event of a socket already registered adds
    no second entry; and each of the two listeners writes one line whose
    count is the size of the registry after the change. *)
Theorem connect_then_close_restores_the_registry (ws : WebSocket) (this : WebServer) :
  let connected := onConnection ws this in
  (unregistered ws this ->
   clients (final (onClose ws (final connected))) = clients this)
  /\ clients (final (onConnection ws (final connected))) = clients (final connected)
  /\ (exists client, In client (clients (final connected)) /\ ws_id client = ws_id ws)
  /\ trace connected
     = [appendLine [Text "[WebServer] Browser client connected. Total clients: ";
                    Count (List.length (clients (final connected)))]]
  /\ trace (onClose ws this)
     = [appendLine [Text "[WebServer] Browser client disconnected. Total clients: ";
                    Count (List.length (clients (final (onClose ws this))))]].
Proof.
  cbv zeta.
  change (clients (final (onConnection ws this))) with (Set_add ws (clients this)).
  change (clients (final (onClose ws (final (onConnection ws this)))))
    with (Set_delete ws (Set_add ws (clients this))).
  change (clients (final (onConnection ws (final (onConnection ws this)))))
    with (Set_add ws (Set_add ws (clients this))).
  split; [intros Habs; now apply Set_delete_add|].
  split; [apply Set_add_registered|].
  split.
  { unfold Set_add. destruct (existsb _ (clients this)) eqn:Hex.
    - apply existsb_exists in Hex as [c [Hin Heq]]. apply Nat.eqb_eq in Heq.
      now exists c.
    - exists ws. split; [|reflexivity]. apply in_or_app. right. now left. }
  split; reflexivity.
Qed.

Section Histories.

Context `{JSONModule}.

Lemma after_wellFormed (c : Call) (this : WebServer) :
  wellFormed this -> wellFormed (after c this).
Proof.
  intros [Hwss Hnd]. destruct c; cbn [after].
  - split; [exact Hwss | exact Hnd].
  - split; [exact Hwss | exact Hnd].
  - split; [exact Hwss | exact Hnd].
  - destruct (Bool.bool_dec (running this) true) as [Hrun|Hrun].
    + rewrite start_when_running by exact Hrun. split; [exact Hwss | exact Hnd].
    + apply Bool.not_true_is_false in Hrun. rewrite start_when_stopped by exact Hrun.
      destruct bound as [err|[]]; (split; [discriminate | exact Hnd]).
  - destruct (Bool.bool_dec (running this) true) as [Hrun|Hrun].
    + rewrite (stop_when_running closed this Hrun (Hwss Hrun)).
      destruct closed; (split; [discriminate | constructor]).
    + apply Bool.not_true_is_false in Hrun. unfold stop. rewrite Hrun.
      split; [exact Hwss | exact Hnd].
  - assert (Hsame : fst (fst (broadcastToClients message this)) = this).
    { rewrite RelayClaims.broadcastToClients_run.
      destruct (clients this); [reflexivity|].
      destruct (JSON_stringify (envelope message)); reflexivity. }
    rewrite Hsame. split; [exact Hwss | exact Hnd].
  - split; [exact Hwss | now apply Set_add_NoDup].
  - pose proof (onMessage_final data this) as Hfinal.
    unfold final in Hfinal. rewrite Hfinal. split; [exact Hwss | exact Hnd].
  - split; [exact Hwss | now apply Set_delete_NoDup].
  - split; [exact Hwss | now apply Set_delete_NoDup].
Qed.

Lemma history_wellFormed (calls : list Call) : wellFormed (history calls).
Proof.
  unfold history.
  assert (Hfold : forall this, wellFormed this ->
                               wellFormed (fold_left (fun s c => after c s) calls this)).
  { induction calls as [|c calls IH]; intros this Hwf; simpl; [exact Hwf|].
    apply IH. now apply after_wellFormed. }
  apply Hfold. split; [discriminate | constructor].
Qed.

(** X6. Whatever calls and events came before, on a server that started
    as a new object, [stop] finds the servers it closes: its promise is
    fulfilled or rejected, never left pending, and the server is not
    running afterwards. *)
Theorem stop_always_settles (calls : list Call) (closed : option exn) :
  settled (stop closed (history calls)) <> inr pending
  /\ running (stopState (stop closed (history calls))) = false.
Proof.
  destruct (history_wellFormed calls) as [Hwss _].
  destruct (Bool.bool_dec (running (history calls)) true) as [Hrun|Hrun].
  - rewrite (stop_when_running closed _ Hrun (Hwss Hrun)).
    destruct closed; split; try discriminate; reflexivity.
  - apply Bool.not_true_is_false in Hrun. unfold stop. rewrite Hrun.
    split; [discriminate | exact Hrun].
Qed.

(** X7. Whatever calls and events came before, the registry holds each
    socket once, so a broadcast writes to a connection at most once. *)
Theorem broadcast_writes_once_per_connection (calls : list Call) (message : JSON) :
  NoDup (map ws_id (clients (history calls)))
  /\ NoDup (map fst (writes (trace (broadcastToClients message (history calls))))).
Proof.
  destruct (history_wellFormed calls) as [_ Hnd]. split; [exact Hnd|].
  rewrite RelayClaims.broadcastToClients_run.
  destruct (clients (history calls)) as [|c cs] eqn:Hcs; [constructor|].
  destruct (JSON_stringify (envelope message)) as [err|data];
    cbv [trace]; cbn [fst snd writes]; [constructor|].
  rewrite RelayClaims.writes_sends, map_map. cbn [fst].
  revert Hnd. generalize (c :: cs). intros l Hnd.
  induction l as [|x l IH]; simpl; [constructor|].
  inversion Hnd as [|id ids Hnotin Hrest]; subst.
  destruct (isOpen x); simpl; [|now apply IH].
  constructor; [|now apply IH].
  intros Hin. apply Hnotin. apply in_map_iff in Hin as [y [Heq Hin]].
  apply in_map_iff. exists y. split; [exact Heq|]. now apply filter_In in Hin as [Hin _].
Qed.

End Histories.

End RegistryFacts.

(** ** More of the message relay *)

Module RelayFacts.

Import Http Relay Props Lifecycle MoreProps Facts Dispatch LifecycleFacts.

Section Frames.

Context `{JSONModule}.

(** The calls of the toolbar handler that a frame causes. *)
Lemma onMessage_toolbarCalls (data : string) (this : WebServer) (parsed : JSON) :
  JSON_parse data = inr parsed ->
  toolbarCalls (trace (onMessage data this)) =
  if strictEqString (field parsed "type") "toolbar-action"
     && truthy (field parsed "action")
  then match toolbarActionHandler this, field parsed "action" with
       | Some _, Some action => [action]
       | _, _ => []
       end
  else [].
Proof.
  intros Hp.
  cbv [onMessage try_catch bind lift throw ret get emit await_call getProp render
       trace field].
  rewrite Hp.
  repeat (cbv beta iota zeta; frame_case);
    cbv beta iota zeta; cbn [fst snd app toolbarCalls andb];
    try reflexivity; try discriminate; try exclusive_types.
Qed.

(** X8. For a frame that parses, the toolbar handler is called exactly
    when the [type] is [toolbar-action], the value of [action] is truthy
    and a toolbar handler is registered; it is then called once, with that
    value, whatever its kind (the code does not test that it is a string),
    and the message handler is not called. *)
Theorem toolbar_action_dispatch (this : WebServer) (data : string) (parsed : JSON) :
  JSON_parse data = inr parsed ->
  toolbarCalls (trace (onMessage data this))
  = (if strictEqString (field parsed "type") "toolbar-action"
        && truthy (field parsed "action")
     then match toolbarActionHandler this, field parsed "action" with
          | Some _, Some action => [action]
          | _, _ => []
          end
     else [])
  /\ (strictEqString (field parsed "type") "toolbar-action" = true ->
      messageCalls (trace (onMessage data this)) = []).
Proof.
  intros Hp. split; [now apply onMessage_toolbarCalls|].
  intros Htool. rewrite (onMessage_messageCalls data this parsed Hp).
  destruct (strictEqString (field parsed "type") "webview-message") eqn:Hweb;
    [|reflexivity].
  discriminate (strictEqString_exclusive _ _ _ Hweb Htool).
Qed.

(** X9. With no handler registered, a frame that parses to anything but
    [null] is dropped without a trace: no call, no log line, no error, the
    object unchanged. *)
Theorem frames_without_handlers_are_dropped
    (this : WebServer) (data : string) (parsed : JSON) :
  messageHandler this = None ->
  toolbarActionHandler this = None ->
  JSON_parse data = inr parsed ->
  parsed <> JNull ->
  onMessage data this = (this, [], inr tt).
Proof.
  intros Hm Ht Hp Hnull.
  cbv [onMessage try_catch bind lift throw ret get emit await_call getProp].
  rewrite Hp. cbv beta iota zeta.
  destruct parsed; try congruence; cbv beta iota zeta; try reflexivity.
  repeat (cbv beta iota zeta;
          first [rewrite Hm | rewrite Ht | frame_case]);
    cbv beta iota zeta; reflexivity.
Qed.

(** X10. A frame that parses to a value that is not an object is never
    dispatched: a boolean, a number, a string or an array is ignored
    without a trace, and [null] leaves one log line, the [TypeError] of
    reading its [type]. *)
Theorem frames_that_are_not_objects_are_ignored
    (this : WebServer) (data : string) (parsed : JSON) :
  JSON_parse data = inr parsed ->
  (isPrimitiveOrArray parsed = true -> onMessage data this = (this, [], inr tt))
  /\ (parsed = JNull ->
      exists err, onMessage data this = (this, [frameError err], inr tt)).
Proof.
  intros Hp. split.
  - intros Hkind.
    cbv [onMessage try_catch bind lift throw ret get emit await_call getProp].
    rewrite Hp. destruct parsed; try discriminate; reflexivity.
  - intros ->. eexists.
    cbv [onMessage try_catch bind lift throw ret get emit await_call getProp frameError].
    rewrite Hp. reflexivity.
Qed.

End Frames.

Lemma toolbar_action_dispatch_witness :
  toolbarCalls (trace (@onMessage Examples.json_table Examples.frame_toolbar Examples.server))
  = [JString "newTask"].
Proof.
  destruct (@toolbar_action_dispatch Examples.json_table Examples.server
              Examples.frame_toolbar
              (JObject [("type", JString "toolbar-action"); ("action", JString "newTask")])
              eq_refl) as [Hcalls _].
  exact Hcalls.
Defined.

Lemma frames_without_handlers_witness :
  @onMessage Examples.json_table Examples.frame_webview new_WebServer
  = (new_WebServer, [], inr tt).
Proof.
  apply (@frames_without_handlers_are_dropped Examples.json_table new_WebServer
           Examples.frame_webview Examples.parsed_webview eq_refl eq_refl eq_refl).
  discriminate.
Defined.

Lemma frames_that_are_not_objects_witness :
  exists err,
    @onMessage Examples.json_table Examples.frame_null Examples.server
    = (Examples.server, [frameError err], inr tt).
Proof.
  destruct (@frames_that_are_not_objects_are_ignored Examples.json_table Examples.server
              Examples.frame_null JNull eq_refl) as [_ Hnull].
  exact (Hnull eq_refl).
Defined.

(** X11. [configure] on a running server binds nothing: it writes
    nothing, the server keeps running with its registry, and a [start] on
    the reconfigured server is refused as already running, so the new port
    is not listened on; it is after a clean [stop] that [start] listens on
    it. *)
Theorem configure_while_running_binds_nothing
    (p : number) (pw : option JSString) (bound : exn + unit) (this : WebServer) :
  running this = true ->
  wss this <> None ->
  let configured := final (configure p pw this) in
  trace (configure p pw this) = []
  /\ running configured = true
  /\ clients configured = clients this
  /\ listens (trace (start bound configured)) = []
  /\ listens (trace (start bound (stopState (stop None configured))))
     = [if gt_zero p then p else DEFAULT_WEB_SERVER_PORT].
Proof.
  intros Hrun Hwss. cbv zeta.
  assert (Hrun' : running (final (configure p pw this)) = true) by exact Hrun.
  assert (Hwss' : wss (final (configure p pw this)) <> None) by exact Hwss.
  split; [reflexivity|]. split; [exact Hrun'|]. split; [reflexivity|].
  split.
  - now rewrite start_when_running.
  - rewrite (stop_when_running None _ Hrun' Hwss'). cbv [stopState]. cbn [fst].
    rewrite start_when_stopped by reflexivity.
    destruct bound as [err|[]]; reflexivity.
Qed.

Lemma configure_while_running_witness :
  listens (trace (start (inr tt)
                    (final (configure (number_of_Z 9000) None Examples.server)))) = [].
Proof.
  destruct (configure_while_running_binds_nothing (number_of_Z 9000) None (inr tt)
              Examples.server eq_refl (fun Hnone => match Hnone with eq_refl => I end))
    as [_ [_ [_ [Hnone _]]]].
  exact Hnone.
Defined.

End RelayFacts.

(** ** More of the static asset resolver *)

Module HttpFacts.

Import Http Relay Props Lifecycle MoreProps Facts Guard Resolver.

Lemma beforeFirst_app (c : ascii) (path query : string) :
  beforeFirst c (path ++ String c query) = beforeFirst c path.
Proof.
  induction path as [|a path IH]; simpl.
  - now rewrite Ascii.eqb_refl.
  - destruct (Ascii.eqb a c); [reflexivity | now rewrite IH].
Qed.

Lemma MIME_TYPES_unambiguous (ext type : string) :
  In (ext, type) MIME_TYPES -> record_get MIME_TYPES ext = Some type.
Proof.
  unfold MIME_TYPES. simpl.
  intros Hin.
  repeat (destruct Hin as [Hin|Hin]; [injection Hin as <- <-; reflexivity|]).
  destruct Hin.
Qed.

Section Answers.

Context `{BufferModule} `{PathModule} `{FileSystem} `{PageTemplate}.

Lemma serveFile_finished (res : ServerResponse) (filePath : string) :
  finished (fst (serveFile res filePath)) = true
  /\ getHeader (fst (serveFile res filePath)) "Content-Type" <> None.
Proof.
  unfold serveFile. destruct (existsSync filePath); simpl.
  - destruct (readFileSync filePath); simpl; split; try reflexivity;
      rewrite getHeader_end, getHeader_writeHead_one_same; discriminate.
  - split; [reflexivity|].
    rewrite getHeader_end, getHeader_writeHead_one_same. discriminate.
Qed.

Lemma serveIndexHtml_answer (res : ServerResponse) (buildDir : string) :
  finished (fst (serveIndexHtml res buildDir)) = true
  /\ statusCode (fst (serveIndexHtml res buildDir)) = 200
  /\ getHeader (fst (serveIndexHtml res buildDir)) "Content-Type" <> None.
Proof.
  unfold serveIndexHtml. simpl. repeat split.
  rewrite getHeader_end, getHeader_writeHead_one_same. discriminate.
Qed.

(** The answer depends on the request through its method, its credentials
    and its path only. *)
Lemma handleRequest_same_path (this : WebServer) (req1 req2 : IncomingMessage)
    (res : ServerResponse) (buildDir assetsDir audioDir : string) :
  method req1 = method req2 ->
  authorization req1 = authorization req2 ->
  urlPath req1 = urlPath req2 ->
  handleRequest this req1 res buildDir assetsDir audioDir
  = handleRequest this req2 res buildDir assetsDir audioDir.
Proof.
  intros Hm Ha Hp.
  assert (Hopt : isOptions req1 = isOptions req2).
  { unfold isOptions. now rewrite Hm. }
  assert (Hauth : authorized this req1 = authorized this req2).
  { unfold authorized. rewrite !checkBasicAuth_cases.
    unfold credentialAccepted. now rewrite Ha. }
  destruct (isOptions req2) eqn:Hopt2.
  - unfold handleRequest. unfold isOptions in Hopt, Hopt2. now rewrite Hopt, Hopt2.
  - destruct (authorized this req2) eqn:Hauth2.
    + rewrite !handleRequest_routing by assumption. now rewrite Hp.
    + now rewrite !handleRequest_guard_failed by assumption.
Qed.

Lemma handleRequest_answer (this : WebServer) (req : IncomingMessage)
    (res : ServerResponse) (buildDir assetsDir audioDir : string) :
  let answer := fst (handleRequest this req res buildDir assetsDir audioDir) in
  finished answer = true
  /\ isAnswerStatus (statusCode answer) = true
  /\ (statusCode answer = 204 <-> isOptions req = true)
  /\ (statusCode answer = 401 <-> isOptions req = false /\ authorized this req = false)
  /\ (statusCode answer <> 204 -> getHeader answer "Content-Type" <> None).
Proof.
  cbv zeta. destruct (isOptions req) eqn:Hopt.
  - unfold handleRequest. unfold isOptions in Hopt. rewrite Hopt. simpl.
    repeat split; try reflexivity; try discriminate; try congruence.
    intros [Hfalse _]. discriminate.
  - destruct (authorized this req) eqn:Hauth.
    + rewrite handleRequest_routing by assumption. cbv zeta.
      assert (Hfile : forall p,
                 finished (fst (serveFile (cors res) p)) = true
                 /\ isAnswerStatus (statusCode (fst (serveFile (cors res) p))) = true
                 /\ (statusCode (fst (serveFile (cors res) p)) = 204 <-> false = true)
                 /\ (statusCode (fst (serveFile (cors res) p)) = 401
                     <-> false = false /\ true = false)
                 /\ (statusCode (fst (serveFile (cors res) p)) <> 204 ->
                     getHeader (fst (serveFile (cors res) p)) "Content-Type" <> None)).
      { intros p. destruct (serveFile_finished (cors res) p) as [Hfin Htype].
        rewrite serveFile_status.
        destruct (existsSync p); [destruct (readFileSync p)|];
          (split; [exact Hfin|]); (split; [reflexivity|]);
          (split; [split; discriminate|]);
          (split; [split; [discriminate | intros [_ Hfalse]; discriminate]|]);
          intros _; exact Htype. }
      assert (Hpage :
                 finished (fst (serveIndexHtml (cors res) buildDir)) = true
                 /\ isAnswerStatus (statusCode (fst (serveIndexHtml (cors res) buildDir))) = true
                 /\ (statusCode (fst (serveIndexHtml (cors res) buildDir)) = 204
                     <-> false = true)
                 /\ (statusCode (fst (serveIndexHtml (cors res) buildDir)) = 401
                     <-> false = false /\ true = false)
                 /\ (statusCode (fst (serveIndexHtml (cors res) buildDir)) <> 204 ->
                     getHeader (fst (serveIndexHtml (cors res) buildDir)) "Content-Type"
                     <> None)).
      { destruct (serveIndexHtml_answer (cors res) buildDir) as [Hfin [Hst Htype]].
        rewrite Hst. split; [exact Hfin|]. split; [reflexivity|].
        split; [split; discriminate|].
        split; [split; [discriminate | intros [_ Hfalse]; discriminate]|].
        intros _. exact Htype. }
      repeat match goal with
             | |- context [if ?c then _ else _] => destruct c
             end; first [apply Hfile | exact Hpage].
    + rewrite handleRequest_guard_failed by assumption. unfold unauthorized. simpl.
      repeat split; try reflexivity; try discriminate; try congruence.
      intros _. rewrite getHeader_end, getHeader_writeHead_one_same. discriminate.
Qed.

(** X12. Every request is answered: the response is ended, and its status
    is 204 exactly for a preflight, 401 exactly for another request that
    the guard refuses, and otherwise 200, 404 or 500; every answer but the
    204 carries a [Content-Type]. *)
Theorem every_request_is_answered (this : WebServer) (req : IncomingMessage)
    (res : ServerResponse) (buildDir assetsDir audioDir : string) :
  let answer := fst (handleRequest this req res buildDir assetsDir audioDir) in
  finished answer = true
  /\ isAnswerStatus (statusCode answer) = true
  /\ (statusCode answer = 204 <-> isOptions req = true)
  /\ (statusCode answer = 401 <-> isOptions req = false /\ authorized this req = false)
  /\ (statusCode answer <> 204 -> getHeader answer "Content-Type" <> None).
Proof. exact (handleRequest_answer this req res buildDir assetsDir audioDir). Qed.

(** X16. [configure] decides the guard. After [configure] with no
    password ([null], [undefined] or the empty string) every request passes
    and none is answered 401. After [configure] with a non-empty password
    a request without credentials, other than a preflight, is answered 401,
    and one that carries any user name and that password is not. *)
Theorem configure_sets_the_guard (p : number) (pw : option JSString)
    (this : WebServer) (req : IncomingMessage) (res : ServerResponse)
    (buildDir assetsDir audioDir : string) :
  let configured := Props.final (Relay.configure p pw this) in
  let status :=
    statusCode (fst (handleRequest configured req res buildDir assetsDir audioDir)) in
  (pw = None \/ pw = Some [] -> authorized configured req = true /\ status <> 401)
  /\ (forall secret,
         pw = Some secret -> secret <> [] -> isOptions req = false ->
         (authorization req = None -> status = 401)
         /\ (forall user encoded,
                ~ In COLON user ->
                authorization req = Some ("Basic " ++ encoded) ->
                base64_utf8 encoded = (user ++ COLON :: secret)%list ->
                status <> 401)).
Proof.
  cbv zeta.
  destruct (handleRequest_answer (Props.final (Relay.configure p pw this)) req res
              buildDir assetsDir audioDir) as [_ [_ [_ [H401 _]]]].
  split.
  - intros Hpw.
    assert (Hauth : authorized (Props.final (Relay.configure p pw this)) req = true).
    { unfold authorized. rewrite checkBasicAuth_cases.
      destruct Hpw as [-> | ->]; reflexivity. }
    split; [exact Hauth|]. intros Hst. apply H401 in Hst as [_ Hno]. congruence.
  - intros secret -> Hne Hopt.
    assert (Hauth : authorized (Props.final (Relay.configure p (Some secret) this)) req
                    = credentialAccepted
                        (Props.final (Relay.configure p (Some secret) this)) req).
    { unfold authorized. rewrite checkBasicAuth_cases.
      change (password (Props.final (Relay.configure p (Some secret) this))) with secret.
      destruct secret; [congruence|]. simpl.
      destruct (credentialAccepted _ req); reflexivity. }
    split.
    + intros Hnone. apply H401. split; [exact Hopt|]. rewrite Hauth.
      unfold credentialAccepted. now rewrite Hnone.
    + intros user encoded Hnot Hhdr Hdec Hst.
      apply H401 in Hst as [_ Hno]. rewrite Hauth in Hno.
      assert (Hyes : credentialAccepted
                       (Props.final (Relay.configure p (Some secret) this)) req = true).
      { apply credentialAccepted_iff. exists encoded. split; [exact Hhdr|].
        unfold passwordPart. rewrite Hdec, afterFirstColon_user by exact Hnot.
        reflexivity. }
      congruence.
Qed.

(** X13. The query string plays no part: a request for a path followed by
    [?] and anything is answered exactly as the request for the path alone,
    with the same method and credentials. *)
Theorem query_string_is_ignored (this : WebServer) (m auth : option string)
    (path query : string) (res : ServerResponse) (buildDir assetsDir audioDir : string) :
  path <> EmptyString ->
  handleRequest this
    {| url := Some (path ++ "?" ++ query); method := m; authorization := auth |}
    res buildDir assetsDir audioDir
  = handleRequest this {| url := Some path; method := m; authorization := auth |}
      res buildDir assetsDir audioDir.
Proof.
  intros Hpath. apply handleRequest_same_path; try reflexivity.
  unfold urlPath. cbn [url].
  destruct path as [|a path]; [congruence|].
  change (String a path ++ "?" ++ query) with (String a (path ++ String "?" query)).
  cbn [String.eqb]. change (String a (path ++ String "?" query))
    with (String a path ++ String "?" query).
  apply beforeFirst_app.
Qed.

(** X14. Below [/audio/] a file that does not exist is a 404 with a
    plaintext body, not the bootstrap page: the asset routes are tried
    before the SPA fallback. *)
Theorem audio_missing_is_404 (this : WebServer) (req : IncomingMessage)
    (res : ServerResponse) (buildDir assetsDir audioDir : string) :
  isOptions req = false ->
  authorized this req = true ->
  startsWith (urlPath req) "/audio/" = true ->
  existsSync (path_join audioDir (sliceFrom (String.length "/audio/") (urlPath req))) = false ->
  handleRequest this req res buildDir assetsDir audioDir
  = (end_ (writeHead (cors res) 404 [("Content-Type", "text/plain")]) "Not Found", []).
Proof.
  intros Hopt Hauth Haudio Hno.
  rewrite handleRequest_routing by assumption. cbv zeta.
  assert (Hext : startsWith (urlPath req) "/ext-assets/" = false).
  { rewrite (startsWith_split _ _ Haudio). reflexivity. }
  rewrite Hext, Haudio. now apply serveFile_missing.
Qed.

(** X15. A file that exists and can be read is served with status 200,
    its content, and the type the table gives for its extension, whatever
    the case of the letters of the extension. *)
Theorem known_extensions_get_their_type (res : ServerResponse)
    (filePath content ext type : string) :
  In (ext, type) MIME_TYPES ->
  toLowerCase (path_extname filePath) = ext ->
  existsSync filePath = true ->
  readFileSync filePath = inr content ->
  serveFile res filePath
  = (end_ (writeHead res 200 [("Content-Type", type)]) content, []).
Proof.
  intros Hin Hext Hex Hread. unfold serveFile.
  rewrite Hex, Hext, (MIME_TYPES_unambiguous ext type Hin), Hread. reflexivity.
Qed.

End Answers.

Lemma query_string_witness :
  Examples.request Examples.server (Examples.get ("/favicon.ico" ++ "?" ++ "v=2") Examples.auth_secret)
  = Examples.request Examples.server (Examples.get "/favicon.ico" Examples.auth_secret).
Proof.
  apply (@query_string_is_ignored NodeBuffer.node_buffer Posix.posix Examples.disk
           Examples.skeleton Examples.server (Some "GET") Examples.auth_secret
           "/favicon.ico" "v=2").
  discriminate.
Defined.

Lemma audio_missing_witness :
  Examples.request Examples.server (Examples.get "/audio/missing.mp3" Examples.auth_secret)
  = (end_ (writeHead (cors new_ServerResponse) 404 [("Content-Type", "text/plain")])
       "Not Found", []).
Proof.
  exact (@audio_missing_is_404 NodeBuffer.node_buffer Posix.posix Examples.disk
           Examples.skeleton Examples.server
           (Examples.get "/audio/missing.mp3" Examples.auth_secret) new_ServerResponse
           Examples.buildDir Examples.assetsDir Examples.audioDir
           eq_refl eq_refl eq_refl eq_refl).
Defined.

Lemma known_extensions_witness :
  @serveFile Posix.posix Examples.disk new_ServerResponse "/ext/webview-ui/build/favicon.ico"
  = (end_ (writeHead new_ServerResponse 200 [("Content-Type", "image/x-icon")]) "icon", []).
Proof.
  apply (@known_extensions_get_their_type Posix.posix Examples.disk new_ServerResponse
           "/ext/webview-ui/build/favicon.ico" "icon" ".ico" "image/x-icon");
    [|reflexivity|reflexivity|reflexivity].
  unfold MIME_TYPES. simpl. tauto.
Defined.

End HttpFacts.

(** ** The page and the server, end to end *)

Module PageFacts.

Import Http Relay Props Lifecycle MoreProps Page Facts Dispatch.

(** Reading a field of an envelope the page or the server built. *)
Lemma field_webviewEnvelope (msg : JSON) :
  field (webviewEnvelope msg) "type" = Some (JString "webview-message")
  /\ field (webviewEnvelope msg) "payload" = Some msg.
Proof. split; reflexivity. Qed.

Section EndToEnd.

Context `{JSONModule}.

(** X17. From the webview to the host. Outside VS Code, with the page's
    socket open, [postMessage(msg)] sends one frame, the serialized
    envelope of [msg]; when the server's parser gives that envelope back
    and [msg] is truthy, the frame makes the server call the registered
    message handler once, with [msg], and not the toolbar handler. When the
    page script has not run, or its socket is absent or not open, nothing
    is sent and nothing is thrown: the message is lost. Inside VS Code the
    message goes to the host API and the socket is not used. *)
Theorem posted_message_reaches_the_handler
    (wrapper : VSCodeAPIWrapper) (win : Window) (msg : JSON) (this : WebServer) :
  (vsCodeApi wrapper = None ->
   (forall data handler,
       rooWebSocket win = Some (Some OPEN) ->
       JSON_stringify (webviewEnvelope msg) = inr data ->
       JSON_parse data = inr (webviewEnvelope msg) ->
       truthy (Some msg) = true ->
       messageHandler this = Some handler ->
       postMessage wrapper win msg = inr [wsSend data]
       /\ messageCalls (trace (onMessage data this)) = [msg]
       /\ toolbarCalls (trace (onMessage data this)) = [])
   /\ (rooWebSocket win = None -> postMessage wrapper win msg = inr [])
   /\ (forall ws, rooWebSocket win = Some ws -> socketOpen ws = false ->
                  postMessage wrapper win msg = inr []))
  /\ (vsCodeApi wrapper <> None -> postMessage wrapper win msg = inr [apiPostMessage msg]).
Proof.
  split.
  - intros Hapi. unfold postMessage. rewrite Hapi. split; [|split].
    + intros data handler Hws Hser Hpar Htr Hh. rewrite Hws.
      unfold rooWebSocket_send. cbn [socketOpen]. fold (webviewEnvelope msg).
      rewrite Hser. split; [reflexivity|]. split.
      * rewrite (onMessage_messageCalls data this _ Hpar).
        destruct (field_webviewEnvelope msg) as [-> ->].
        change (strictEqString (Some (JString "webview-message")) "webview-message")
          with true.
        rewrite Htr, Hh. reflexivity.
      * rewrite (RelayFacts.onMessage_toolbarCalls data this _ Hpar).
        destruct (field_webviewEnvelope msg) as [-> _]. reflexivity.
    + intros ->. reflexivity.
    + intros ws -> Hclosed. unfold rooWebSocket_send. now rewrite Hclosed.
  - intros Hapi. unfold postMessage. destruct (vsCodeApi wrapper); [reflexivity|congruence].
Qed.

(** X18. From the host to the webview. A broadcast message is written to
    every registered connection that is open; when the page's parser gives
    the envelope back, the page's listener re-dispatches the payload as one
    message event if the payload is truthy, and drops the frame otherwise. *)
Theorem broadcast_reaches_the_page
    (message : JSON) (data : string) (client : WebSocket) (this : WebServer) :
  In client (clients this) ->
  readyState client = OPEN ->
  JSON_stringify (envelope message) = inr data ->
  JSON_parse data = inr (envelope message) ->
  In (ws_id client, data) (writes (trace (broadcastToClients message this)))
  /\ onPageMessage data
     = if truthy (Some message) then [dispatchMessageEvent message] else [].
Proof.
  intros Hin Hopen Hser Hpar. split.
  - rewrite RelayClaims.broadcastToClients_run.
    destruct (clients this) as [|c cs] eqn:Hcs; [destruct Hin|].
    rewrite Hser. cbv [trace]. cbn [fst snd writes].
    rewrite RelayClaims.writes_sends. apply in_map_iff. exists client.
    split; [reflexivity|]. apply filter_In. split; [exact Hin|].
    unfold isOpen. now rewrite Hopen.
  - unfold onPageMessage. rewrite Hpar. reflexivity.
Qed.

(** X19. From a toolbar button to the host. With the page's socket open,
    [sendToolbarAction(action)] sends one frame; when the server's parser
    gives the envelope back, the frame makes the server call the registered
    toolbar handler once with the action name, and never the message
    handler, unless the name is empty, in which case no handler is called.
    With the socket absent or not open nothing is sent. *)
Theorem toolbar_button_reaches_the_handler
    (ws : option ReadyState) (action : string) (this : WebServer) :
  (forall data handler,
      socketOpen ws = true ->
      JSON_stringify (toolbarEnvelope action) = inr data ->
      JSON_parse data = inr (toolbarEnvelope action) ->
      toolbarActionHandler this = Some handler ->
      sendToolbarAction ws action = inr [wsSend data]
      /\ toolbarCalls (trace (onMessage data this))
         = (if String.eqb action EmptyString then [] else [JString action])
      /\ messageCalls (trace (onMessage data this)) = [])
  /\ (socketOpen ws = false -> sendToolbarAction ws action = inr []).
Proof.
  split.
  - intros data handler Hopen Hser Hpar Hh.
    unfold sendToolbarAction. rewrite Hopen. fold (toolbarEnvelope action).
    rewrite Hser. split; [reflexivity|]. split.
    + rewrite (RelayFacts.onMessage_toolbarCalls data this _ Hpar).
      change (field (toolbarEnvelope action) "type") with (Some (JString "toolbar-action")).
      change (field (toolbarEnvelope action) "action") with (Some (JString action)).
      change (strictEqString (Some (JString "toolbar-action")) "toolbar-action") with true.
      rewrite Hh. cbn [andb truthy].
      destruct (String.eqb action EmptyString); reflexivity.
    + rewrite (onMessage_messageCalls data this _ Hpar). reflexivity.
  - intros Hclosed. unfold sendToolbarAction. now rewrite Hclosed.
Qed.

Lemma getItem_setItem_same (key value : string) (win : Window) :
  getItem key (setItem key value win) = Some value.
Proof. apply record_get_set_field_same. Qed.

Lemma getItem_setItem_other (key value other : string) (win : Window) :
  key <> other -> getItem other (setItem key value win) = getItem other win.
Proof. apply record_get_set_field_other. Qed.

(** X20. The webview state round trip. Outside VS Code, [setState(v)]
    returns [v] and stores its serialization under the one key
    [vscodeState], leaving every other key of the storage alone; when the
    parser gives [v] back from that text, [getState()] then answers [v].
    With nothing stored, or the empty text stored, [getState()] answers
    [undefined]. Inside VS Code the host keeps the value and the storage is
    not touched. *)
Theorem webview_state_round_trip
    (wrapper : VSCodeAPIWrapper) (win : Window) (v : JSON) :
  (vsCodeApi wrapper = None ->
   (forall text,
       JSON_stringify v = inr text ->
       text <> EmptyString ->
       JSON_parse text = inr v ->
       exists win',
         setState wrapper win (Some v) = inr (wrapper, win', Some v)
         /\ getState wrapper win' = inr (Some v)
         /\ rooWebSocket win' = rooWebSocket win
         /\ forall key, key <> "vscodeState" -> getItem key win' = getItem key win)
   /\ (getItem "vscodeState" win = None -> getState wrapper win = inr None)
   /\ (getItem "vscodeState" win = Some EmptyString -> getState wrapper win = inr None)
   /\ (forall err, JSON_stringify v = inl err ->
                   setState wrapper win (Some v) = inl err))
  /\ (vsCodeApi wrapper <> None ->
      exists wrapper',
        setState wrapper win (Some v) = inr (wrapper', win, Some v)
        /\ getState wrapper' win = inr (Some v)).
Proof.
  split.
  - intros Hapi. split; [|split; [|split]].
    + intros text Hser Hne Hpar. exists (setItem "vscodeState" text win).
      unfold setState, getState. rewrite Hapi, Hser, getItem_setItem_same, Hpar.
      destruct (String.eqb_spec text EmptyString) as [Hempty|_]; [congruence|].
      repeat split. intros key Hkey. apply getItem_setItem_other. congruence.
    + intros Hnone. unfold getState. now rewrite Hapi, Hnone.
    + intros Hempty. unfold getState. now rewrite Hapi, Hempty.
    + intros err Hser. unfold setState. now rewrite Hapi, Hser.
  - intros Hapi. exists {| vsCodeApi := Some (Some v) |}.
    unfold setState, getState. destruct (vsCodeApi wrapper); [|congruence].
    split; reflexivity.
Qed.

End EndToEnd.

Lemma broadcast_reaches_the_page_witness :
  In (1, Examples.envelope_foo_text)
     (writes (trace (@broadcastToClients MoreExamples.json_round_trip
                       Examples.message_foo Examples.server)))
  /\ @onPageMessage MoreExamples.json_round_trip Examples.envelope_foo_text
     = [dispatchMessageEvent Examples.message_foo].
Proof.
  exact (@broadcast_reaches_the_page MoreExamples.json_round_trip Examples.message_foo
           Examples.envelope_foo_text {| ws_id := 1; readyState := OPEN |} Examples.server
           (or_introl eq_refl) eq_refl eq_refl eq_refl).
Defined.

End PageFacts.

(** ** The settings panel and the server *)

Module SettingsFacts.

Import Relay Props Settings.

Lemma SFleb_1024_positive (val : number) :
  SFleb (number_of_Z 1024) val = true -> gt_zero val = true.
Proof.
  destruct val as [s| [|] | | [|] m e]; vm_compute; intros Hle;
    try discriminate; reflexivity.
Qed.

Section PortField.

Context `{NumberModule}.

(** X21. The port field hands on at most one value per change, and only
    a value that is not NaN and lies between 1024 and 65535; such a value
    is greater than zero, so [configure] stores it as it is, never the
    default in its place, and [getPort] answers it. Any other input of the
    field is not handed on at all. *)
Theorem port_field_values_are_stored_as_they_are
    (value : string) (pw : option JSString) (this : WebServer) :
  let val := parseInt10 value in
  let in_range :=
    negb (isNaN val) && SFleb (number_of_Z 1024) val && SFleb val (number_of_Z 65535) in
  portOnChange value = (if in_range then [webServerPort val] else [])
  /\ (in_range = true ->
      gt_zero val = true
      /\ port (final (configure val pw this)) = val
      /\ outcome (getPort (final (configure val pw this))) = inr val)
  /\ (forall field, In field (portOnChange value) -> field = webServerPort val)
  /\ List.length (portOnChange value) <= 1.
Proof.
  cbv zeta. unfold portOnChange.
  destruct (negb (isNaN (parseInt10 value))
            && SFleb (number_of_Z 1024) (parseInt10 value)
            && SFleb (parseInt10 value) (number_of_Z 65535)) eqn:Hrange.
  - split; [reflexivity|]. split.
    + intros _. apply andb_true_iff in Hrange as [Hlow _].
      apply andb_true_iff in Hlow as [_ Hlow].
      pose proof (SFleb_1024_positive _ Hlow) as Hgt.
      split; [exact Hgt|].
      cbv [configure bind modify final getPort get ret outcome]. cbn [fst snd port set_port set_password].
      rewrite Hgt. split; reflexivity.
    + split; [|simpl; lia]. intros field [<-|[]]. reflexivity.
  - split; [reflexivity|]. split; [discriminate|].
    split; [intros field []|simpl; lia].
Qed.

End PortField.

End SettingsFacts.

(** ** Instances on the example world *)

Module MoreChecks.

Import Http Relay Props Lifecycle MoreProps Page Settings.

Lemma posted_message_witness :
  @postMessage MoreExamples.json_round_trip MoreExamples.wrapper MoreExamples.browser
     Examples.payload_x1
  = inr [wsSend Examples.frame_webview]
  /\ messageCalls (trace (@onMessage MoreExamples.json_round_trip Examples.frame_webview
                            Examples.server))
     = [Examples.payload_x1].
Proof.
  destruct (@PageFacts.posted_message_reaches_the_handler MoreExamples.json_round_trip
              MoreExamples.wrapper MoreExamples.browser Examples.payload_x1 Examples.server)
    as [Hbrowser _].
  destruct (Hbrowser eq_refl) as [Hsend _].
  destruct (Hsend Examples.frame_webview (fun _ => None)
              eq_refl eq_refl eq_refl eq_refl eq_refl) as [Hposted [Hcalls _]].
  split; [exact Hposted | exact Hcalls].
Defined.

Lemma toolbar_button_witness :
  @sendToolbarAction MoreExamples.json_round_trip (Some OPEN) "newTask"
  = inr [wsSend Examples.frame_toolbar]
  /\ toolbarCalls (trace (@onMessage MoreExamples.json_round_trip Examples.frame_toolbar
                            Examples.server))
     = [JString "newTask"].
Proof.
  destruct (@PageFacts.toolbar_button_reaches_the_handler MoreExamples.json_round_trip
              (Some OPEN) "newTask" Examples.server) as [Hopen _].
  destruct (Hopen Examples.frame_toolbar (fun _ => Some (thrown "Error: no such action"))
              eq_refl eq_refl eq_refl eq_refl) as [Hsent [Hcalls _]].
  split; [exact Hsent | exact Hcalls].
Defined.

Lemma webview_state_witness :
  exists win',
    @setState MoreExamples.json_round_trip MoreExamples.wrapper MoreExamples.browser
       (Some Examples.message_foo)
    = inr (MoreExamples.wrapper, win', Some Examples.message_foo)
    /\ @getState MoreExamples.json_round_trip MoreExamples.wrapper win'
       = inr (Some Examples.message_foo).
Proof.
  destruct (@PageFacts.webview_state_round_trip MoreExamples.json_round_trip
              MoreExamples.wrapper MoreExamples.browser Examples.message_foo)
    as [Hbrowser _].
  destruct (Hbrowser eq_refl) as [Hround _].
  destruct (Hround MoreExamples.state_text eq_refl
              (fun Hempty => match Hempty with eq_refl => I end) eq_refl)
    as [win' [Hset [Hget _]]].
  exists win'. split; [exact Hset | exact Hget].
Defined.

Lemma port_field_witness :
  @portOnChange MoreExamples.table_parseInt "8080" = [webServerPort (number_of_Z 8080)]
  /\ port (final (configure (number_of_Z 8080) None new_WebServer)) = number_of_Z 8080
  /\ @portOnChange MoreExamples.table_parseInt "80" = [].
Proof.
  destruct (@SettingsFacts.port_field_values_are_stored_as_they_are
              MoreExamples.table_parseInt "8080" None new_WebServer)
    as [Hsent [Hstored _]].
  destruct (Hstored eq_refl) as [_ [Hport _]].
  destruct (@SettingsFacts.port_field_values_are_stored_as_they_are
              MoreExamples.table_parseInt "80" None new_WebServer)
    as [Hrefused _].
  split; [exact Hsent|]. split; [exact Hport | exact Hrefused].
Defined.

End MoreChecks.
